(** * OpenAIGenerator: a shallow embedding of
    [goldenverba/components/generation/OpenAIGenerator.py]

    The adapter discovers the provider's models, builds its configuration,
    assembles the prompt, and decodes the provider's event stream into chunks.

    Python values are embedded as follows.
    - [str] is [string], read as the UTF-8 encoding of the Python string.
    - Values that come out of [json.loads] (and every value that travels with
      them: chunk fields, option values, model identifiers) are [json].
    - Exceptions are the constructors of [exn]; a computation that may raise
      returns a [result].
    - Network requests, log lines and the chunks handed to the consumer are
      [event]s of a trace, in the order in which the code performs them. *)

From Stdlib Require Import ZArith QArith Ascii String List Bool Lia.
From stdpp Require Import base option list strings gmap.

(** ** Python strings *)

Module PyStr.

Definition code (c : ascii) : N := N_of_ascii c.

Definition between (lo hi : N) (c : ascii) : bool :=
  ((lo <=? code c) && (code c <=? hi))%N.

(** [str.isspace] on the one-byte code points: U+0009..U+000D, U+001C..U+0020. *)
Definition space1 (a : ascii) : bool := between 9 13 a || between 28 32 a.

(** U+0085 and U+00A0, as UTF-8. *)
Definition space2 (a b : ascii) : bool :=
  (code a =? 194)%N && ((code b =? 133) || (code b =? 160))%N.

(** U+1680, U+2000..U+200A, U+2028, U+2029, U+202F, U+205F, U+3000, as UTF-8. *)
Definition space3 (a b c : ascii) : bool :=
  ((code a =? 225) && (code b =? 154) && (code c =? 128))%N
  || ((code a =? 226)%N && (code b =? 128)%N
      && (between 128 138 c || (code c =? 168) || (code c =? 169) || (code c =? 175))%N)
  || ((code a =? 226) && (code b =? 129) && (code c =? 159))%N
  || ((code a =? 227) && (code b =? 128) && (code c =? 128))%N.

(** Drops leading whitespace. With [fwd = false] the list is a reversed string,
    so a multi-byte character shows its last byte first. *)
Fixpoint drop_space (fwd : bool) (s : list ascii) : list ascii :=
  match s with
  | [] => []
  | a :: r1 =>
    if space1 a then drop_space fwd r1 else
    match r1 with
    | [] => s
    | b :: r2 =>
      if (if fwd then space2 a b else space2 b a) then drop_space fwd r2 else
      match r2 with
      | [] => s
      | c :: r3 =>
        if (if fwd then space3 a b c else space3 c b a) then drop_space fwd r3
        else s
      end
    end
  end.

(** [s.strip()] *)
Definition strip (s : string) : string :=
  string_of_list_ascii
    (rev (drop_space false (rev (drop_space true (list_ascii_of_string s))))).

(** [s.startswith(p)] *)
Definition startswith (s p : string) : bool := String.prefix p s.

(** [s[n:]] *)
Fixpoint slice_from (n : nat) (s : string) : string :=
  match n, s with
  | O, _ => s
  | S n', String _ r => slice_from n' r
  | S _, EmptyString => EmptyString
  end.

(** [needle in hay] on two strings. *)
Fixpoint contains (needle hay : string) : bool :=
  String.prefix needle hay
  || match hay with
     | EmptyString => false
     | String _ r => contains needle r
     end.

(** The items of a string, one per byte. The code below indexes or iterates
    over a string only to look a key up in the item, which fails in the same
    way for a byte as for a whole character; so only the items' number being
    zero or not matters. *)
Fixpoint chars (s : string) : list string :=
  match s with
  | EmptyString => []
  | String c r => String c EmptyString :: chars r
  end.

Definition dq : string := String (ascii_of_nat 34) EmptyString.
Definition nl : string := String (ascii_of_nat 10) EmptyString.

(** [quoted s] is [s] between two double quotes. *)
Definition quoted (s : string) : string := dq +:+ s +:+ dq.

End PyStr.

(** ** Exceptions and results *)

Inductive exn : Type :=
| AttributeError
| KeyError
| IndexError
| TypeError
| JSONDecodeError
| MissingCredentialError (message : string)
| ConnectionError
| HTTPError (status_code : Z).

Inductive result (A : Type) : Type :=
| Ok (a : A)
| Raise (e : exn).
Arguments Ok {A} a.
Arguments Raise {A} e.

#[global] Instance result_ret : MRet result := @Ok.
#[global] Instance result_bind : MBind result := λ A B f m,
  match m with
  | Ok a => f a
  | Raise e => Raise e
  end.

(** ** Values decoded from JSON *)

#[local] Unset Elimination Schemes.
Inductive json : Type :=
| JNull
| JBool (b : bool)
| JInt (n : Z)
| JFloat (literal : string)
| JStr (s : string)
| JArr (items : list json)
| JObj (fields : list (string * json)).
#[local] Set Elimination Schemes.

Module Py.

(** A [dict] built by [json.loads] is an association list with distinct keys. *)
Fixpoint assoc (k : string) (fields : list (string * json)) : option json :=
  match fields with
  | [] => None
  | (k', v) :: rest => if String.eqb k k' then Some v else assoc k rest
  end.

(** [d[k] = v] on a dict: an existing key keeps its place. *)
Fixpoint assoc_set (k : string) (v : json) (fields : list (string * json))
  : list (string * json) :=
  match fields with
  | [] => [(k, v)]
  | (k', v') :: rest =>
    if String.eqb k k' then (k', v) :: rest else (k', v') :: assoc_set k v rest
  end.

Definition is_str (k : string) (v : json) : bool :=
  match v with
  | JStr s => String.eqb k s
  | _ => false
  end.

(** [o[k]] with a string [k]. *)
Definition getitem (o : json) (k : string) : result json :=
  match o with
  | JObj fields =>
    match assoc k fields with
    | Some v => Ok v
    | None => Raise KeyError
    end
  | _ => Raise TypeError
  end.

(** [o[i]] with a natural number [i]. *)
Definition getindex (o : json) (i : nat) : result json :=
  match o with
  | JArr items =>
    match items !! i with
    | Some v => Ok v
    | None => Raise IndexError
    end
  | JStr s =>
    match PyStr.chars s !! i with
    | Some c => Ok (JStr c)
    | None => Raise IndexError
    end
  | JObj _ => Raise KeyError
  | _ => Raise TypeError
  end.

(** [k in o] with a string [k]. *)
Definition contains (k : string) (o : json) : result bool :=
  match o with
  | JObj fields => Ok (if assoc k fields is Some _ then true else false)
  | JArr items => Ok (existsb (is_str k) items)
  | JStr s => Ok (PyStr.contains k s)
  | _ => Raise TypeError
  end.

(** [o.get(k)] *)
Definition get (o : json) (k : string) : result json :=
  match o with
  | JObj fields => Ok (default JNull (assoc k fields))
  | _ => Raise AttributeError
  end.

(** [for x in o] *)
Definition iter (o : json) : result (list json) :=
  match o with
  | JArr items => Ok items
  | JObj fields => Ok (map (λ kv, JStr kv.1) fields)
  | JStr s => Ok (map JStr (PyStr.chars s))
  | _ => Raise TypeError
  end.

End Py.

(** ** [json.loads]

    The decoder of Python's standard library, on UTF-8 text: RFC 8259 plus the
    three literals [NaN], [Infinity] and [-Infinity]; a repeated key keeps its
    first place and its last value; [None] stands for [JSONDecodeError]. A
    number with a fraction or an exponent keeps its literal. *)

Module JsonDecoder.

Import PyStr.

Definition is_char (n : N) (c : ascii) : bool := (code c =? n)%N.
Definition is_ws (c : ascii) : bool :=
  is_char 32 c || is_char 9 c || is_char 10 c || is_char 13 c.
Definition is_digit (c : ascii) : bool := between 48 57 c.

Fixpoint skip_ws (s : list ascii) : list ascii :=
  match s with
  | c :: r => if is_ws c then skip_ws r else s
  | [] => []
  end.

Definition hex_val (c : ascii) : option N :=
  if between 48 57 c then Some (code c - 48)%N
  else if between 97 102 c then Some (code c - 87)%N
  else if between 65 70 c then Some (code c - 55)%N
  else None.

(** Four hexadecimal digits. *)
Definition hex4 (s : list ascii) : option (N * list ascii) :=
  match s with
  | a :: b :: c :: d :: r =>
    a ← hex_val a; b ← hex_val b; c ← hex_val c; d ← hex_val d;
    Some (((a * 16 + b) * 16 + c) * 16 + d, r)%N
  | _ => None
  end.

Definition byte (n : N) : ascii := ascii_of_N n.

(** UTF-8 of a code point below 0x110000 (a lone surrogate is written the
    same way as any other three-byte code point). *)
Definition utf8 (n : N) : list ascii :=
  if (n <? 128)%N then [byte n]
  else if (n <? 2048)%N then
    [byte (192 + n / 64); byte (128 + n mod 64)]%N
  else if (n <? 65536)%N then
    [byte (224 + n / 4096); byte (128 + (n / 64) mod 64); byte (128 + n mod 64)]%N
  else
    [byte (240 + n / 262144); byte (128 + (n / 4096) mod 64);
     byte (128 + (n / 64) mod 64); byte (128 + n mod 64)]%N.

(** The character after a backslash: quote, backslash, slash, b, f, n, r, t. *)
Definition simple_escape (c : ascii) : option ascii :=
  if is_char 34 c || is_char 92 c || is_char 47 c then Some c
  else if is_char 98 c then Some (byte 8)
  else if is_char 102 c then Some (byte 12)
  else if is_char 110 c then Some (byte 10)
  else if is_char 114 c then Some (byte 13)
  else if is_char 116 c then Some (byte 9)
  else None.

(** After [\u]: the code point, with a surrogate pair joined. *)
Definition unicode_escape (s : list ascii) : option (N * list ascii) :=
  '(hi, r) ← hex4 s;
  if ((55296 <=? hi) && (hi <=? 56319))%N then
    match r with
    | b :: u :: r' =>
      if is_char 92 b && is_char 117 u then
        match hex4 r' with
        | Some (lo, r'') =>
          if ((56320 <=? lo) && (lo <=? 57343))%N
          then Some (65536 + (hi - 55296) * 1024 + (lo - 56320), r'')%N
          else Some (hi, r)
        | None => None
        end
      else Some (hi, r)
    | _ => Some (hi, r)
    end
  else Some (hi, r).

(** The text after an opening quote, up to the closing one. [acc] holds the
    decoded bytes in reverse. *)
Fixpoint scan_string (fuel : nat) (s acc : list ascii)
  : option (string * list ascii) :=
  match fuel with
  | O => None
  | S fuel =>
    match s with
    | [] => None
    | c :: r =>
      if is_char 34 c then Some (string_of_list_ascii (rev acc), r)
      else if is_char 92 c then
        match r with
        | [] => None
        | e :: r' =>
          if is_char 117 e then
            '(n, r'') ← unicode_escape r';
            scan_string fuel r'' (rev (utf8 n) ++ acc)
          else
            e' ← simple_escape e; scan_string fuel r' (e' :: acc)
        end
      else if (code c <? 32)%N then None
      else scan_string fuel r (c :: acc)
    end
  end.

Fixpoint span_digits (s : list ascii) : list ascii * list ascii :=
  match s with
  | c :: r =>
    if is_digit c then let '(ds, r') := span_digits r in (c :: ds, r')
    else ([], s)
  | [] => ([], [])
  end.

Definition digits_value (ds : list ascii) : Z :=
  fold_left (λ acc c, acc * 10 + Z.of_N (code c - 48))%Z ds 0%Z.

(** An optional minus sign, then a single zero or a digit string that does
    not start with zero. *)
Definition scan_int (s : list ascii) : option (list ascii * list ascii) :=
  let '(sign, r) :=
    match s with
    | c :: r => if is_char 45 c then ([c], r) else ([], s)
    | [] => ([], s)
    end in
  match r with
  | c :: r' =>
    if is_char 48 c then Some (sign ++ [c], r')
    else if is_digit c then
      let '(ds, r'') := span_digits r in Some (sign ++ ds, r'')
    else None
  | [] => None
  end.

(** An optional fraction: a dot and at least one digit. *)
Definition scan_frac (s : list ascii) : list ascii * list ascii :=
  match s with
  | c :: r =>
    if is_char 46 c then
      match span_digits r with
      | ([], _) => ([], s)
      | (ds, r') => (c :: ds, r')
      end
    else ([], s)
  | [] => ([], s)
  end.

(** An optional exponent: e or E, an optional sign, at least one digit. *)
Definition scan_exp (s : list ascii) : list ascii * list ascii :=
  match s with
  | c :: r =>
    if is_char 101 c || is_char 69 c then
      let '(sign, r1) :=
        match r with
        | c' :: r' => if is_char 45 c' || is_char 43 c' then ([c'], r') else ([], r)
        | [] => ([], r)
        end in
      match span_digits r1 with
      | ([], _) => ([], s)
      | (ds, r2) => (c :: sign ++ ds, r2)
      end
    else ([], s)
  | [] => ([], s)
  end.

Definition int_value (lit : list ascii) : Z :=
  match lit with
  | c :: ds => if is_char 45 c then (- digits_value ds)%Z else digits_value lit
  | [] => 0%Z
  end.

Definition scan_number (s : list ascii) : option (json * list ascii) :=
  '(i, r1) ← scan_int s;
  let '(f, r2) := scan_frac r1 in
  let '(e, r3) := scan_exp r2 in
  match f, e with
  | [], [] => Some (JInt (int_value i), r3)
  | _, _ => Some (JFloat (string_of_list_ascii (i ++ f ++ e)), r3)
  end.

Fixpoint strip_prefix (p s : list ascii) : option (list ascii) :=
  match p, s with
  | [], _ => Some s
  | a :: p', b :: s' => if Ascii.eqb a b then strip_prefix p' s' else None
  | _ :: _, [] => None
  end.

Definition keywords : list (string * json) :=
  [("null", JNull); ("true", JBool true); ("false", JBool false);
   ("NaN", JFloat "NaN"); ("Infinity", JFloat "Infinity");
   ("-Infinity", JFloat "-Infinity")].

Fixpoint scan_keyword (ks : list (string * json)) (s : list ascii)
  : option (json * list ascii) :=
  match ks with
  | [] => None
  | (k, v) :: ks' =>
    match strip_prefix (list_ascii_of_string k) s with
    | Some r => Some (v, r)
    | None => scan_keyword ks' s
    end
  end.

(** [value] reads one value at the head of [s]; [elements] and [members]
    read the rest of an array or object from the head of its next item. *)
Fixpoint value (fuel : nat) (s : list ascii) : option (json * list ascii) :=
  match fuel with
  | O => None
  | S fuel =>
    match s with
    | [] => None
    | c :: r =>
      if is_char 34 c then
        '(str, r') ← scan_string (S (length r)) r []; Some (JStr str, r')
      else if is_char 123 c then
        match skip_ws r with
        | [] => None
        | c' :: r' =>
          if is_char 125 c' then Some (JObj [], r') else members fuel (c' :: r') []
        end
      else if is_char 91 c then
        match skip_ws r with
        | [] => None
        | c' :: r' =>
          if is_char 93 c' then Some (JArr [], r') else elements fuel (c' :: r') []
        end
      else
        match scan_keyword keywords s with
        | Some res => Some res
        | None => scan_number s
        end
    end
  end
with elements (fuel : nat) (s : list ascii) (acc : list json)
  : option (json * list ascii) :=
  match fuel with
  | O => None
  | S fuel =>
    '(v, r) ← value fuel s;
    match skip_ws r with
    | [] => None
    | c :: r' =>
      if is_char 93 c then Some (JArr (rev (v :: acc)), r')
      else if is_char 44 c then elements fuel (skip_ws r') (v :: acc)
      else None
    end
  end
with members (fuel : nat) (s : list ascii) (acc : list (string * json))
  : option (json * list ascii) :=
  match fuel with
  | O => None
  | S fuel =>
    match s with
    | [] => None
    | q :: r =>
      if is_char 34 q then
        '(k, r1) ← scan_string (S (length r)) r [];
        match skip_ws r1 with
        | [] => None
        | c1 :: r2 =>
          if is_char 58 c1 then
            '(v, r3) ← value fuel (skip_ws r2);
            match skip_ws r3 with
            | [] => None
            | c3 :: r4 =>
              if is_char 125 c3 then Some (JObj (Py.assoc_set k v acc), r4)
              else if is_char 44 c3
              then members fuel (skip_ws r4) (Py.assoc_set k v acc)
              else None
            end
          else None
        end
      else None
    end
  end.

Definition loads (text : string) : option json :=
  let s := list_ascii_of_string text in
  '(v, r) ← value (2 * length s + 2) (skip_ws s);
  match skip_ws r with
  | [] => Some v
  | _ :: _ => None
  end.

End JsonDecoder.

(** [json.loads(text)] *)
Definition json_loads (text : string) : result json :=
  match JsonDecoder.loads text with
  | Some v => Ok v
  | None => Raise JSONDecodeError
  end.

(** ** Data model *)

(** A prior turn of the conversation: the code reads [message.type] and
    [message.content]. *)
Module Turn.
Record t : Type := { type : string; content : string }.
End Turn.

(** A role-tagged message of the request body. *)
Module Message.
Record t : Type := { role : string; content : json }.
End Message.

(** The dictionary the generator yields. *)
Record chunk : Type := { message : json; finish_reason : json }.

(** The request body of the streaming POST. *)
Record ChatRequest : Type := {
  messages : list Message.t;
  model : json;
  stream : bool;
  temperature : Q;
  max_tokens : Z
}.

(** An option descriptor of the configuration. *)
Record InputConfig : Type := {
  type : string;
  value : json;
  description : string;
  values : list json
}.

Record HttpRequest : Type := {
  method : string;
  url : string;
  headers : list (string * string);
  body : option ChatRequest
}.

(** What [requests.get] hands back. *)
Record Response : Type := { status_code : Z; text : string }.

(** What [client.stream] hands back: the status line, and the lines that
    [aiter_lines] produces until the connection closes. *)
Record StreamResponse : Type := { stream_status_code : Z; lines : list string }.

(** Everything the file reads from outside itself. *)
Record World : Type := {
  (** [goldenverba.components.util.get_token]: the credential resolver. *)
  get_token : string → option string;
  (** [os.environ] *)
  environ : gmap string string;
  (** [str(v)] for a value [v] that is not a [str]. *)
  repr : json → string;
  (** The network, as seen through [requests.get]. *)
  requests_get : HttpRequest → result Response;
  (** The network, as seen through [httpx.AsyncClient.stream]. *)
  httpx_stream : HttpRequest → result StreamResponse
}.

(** ** Effects *)

Inductive event : Type :=
| Connect (request : HttpRequest)   (** a network request is attempted *)
| Info (e : exn)                    (** [msg.info] of a failed model fetch *)
| Yield (c : chunk).                (** a chunk reaches the consumer *)

(** A computation performs a trace of events and then returns or raises. *)
Definition M (A : Type) : Type := list event * result A.

#[global] Instance M_ret : MRet M := λ A a, ([], Ok a).
#[global] Instance M_bind : MBind M := λ A B f m,
  match m.2 with
  | Ok a => (m.1 ++ (f a).1, (f a).2)
  | Raise e => (m.1, Raise e)
  end.

Definition lift {A} (r : result A) : M A := ([], r).
Definition emit (e : event) : M unit := ([e], Ok ()).

(** [try: body except Exception as e: handler(e)]; every [exn] is an
    [Exception]. *)
Definition try_except {A} (body : M A) (handler : exn → M A) : M A :=
  match body.2 with
  | Ok a => body
  | Raise e => (body.1 ++ (handler e).1, (handler e).2)
  end.

Definition yielded (trace : list event) : list chunk :=
  omap (λ e, match e with Yield c => Some c | _ => None end) trace.

Definition connections (trace : list event) : list HttpRequest :=
  omap (λ e, match e with Connect r => Some r | _ => None end) trace.

(** [str(v)], as an f-string applies it. *)
Definition str (w : World) (v : json) : string :=
  match v with
  | JStr s => s
  | _ => repr w v
  end.

(** ** [OpenAIGenerator.get_models] *)

Definition default_models : list json := [JStr "gpt-4o"; JStr "gpt-3.5-turbo"].

(** [Response.raise_for_status] of the requests library: a 4xx or 5xx status
    raises [HTTPError]. *)
Definition raise_for_status (response : Response) : result unit :=
  if bool_decide (400 ≤ status_code response < 600)%Z
  then Raise (HTTPError (status_code response))
  else Ok ().

(** [[model["id"] for model in data if not "embedding" in model["id"]]] *)
Fixpoint chat_model_ids (data : list json) : result (list json) :=
  match data with
  | [] => Ok []
  | model :: rest =>
    id ← Py.getitem model "id";
    is_embedding ← Py.contains "embedding" id;
    if negb is_embedding then
      id ← Py.getitem model "id";
      ids ← chat_model_ids rest;
      Ok (id :: ids)
    else chat_model_ids rest
  end.

(** [requests.get(f"{url}/models", headers=headers)] *)
Definition models_request (token url : string) : HttpRequest :=
  {| method := "GET"; url := url +:+ "/models";
     headers := [("Authorization", "Bearer " +:+ token)]; body := None |}.

(** From [raise_for_status] to the end of the comprehension. *)
Definition read_models (response : Response) : result (list json) :=
  raise_for_status response;;
  payload ← json_loads (text response);
  data ← Py.getitem payload "data";
  models ← Py.iter data;
  chat_model_ids models.

Definition fetch_models (w : World) (token url : string) : M (list json) :=
  let request := models_request token url in
  emit (Connect request);;
  response ← lift (requests_get w request);
  lift (read_models response).

Definition get_models (w : World) (token : option string) (url : string)
  : M (list json) :=
  try_except
    match token with
    | None => mret default_models
    | Some token => fetch_models w token url
    end
    (λ e, emit (Info e);; mret default_models).

(** An entry of the discovery response that is an object whose [id] is the
    string [s]. *)
Definition has_id (entry : json) (s : string) : Prop :=
  ∃ fields, entry = JObj fields ∧ Py.assoc "id" fields = Some (JStr s).

(** The base URL the constructor resolves. *)
Definition resolved_base_url (w : World) : string :=
  default "https://api.openai.com/v1" (environ w !! "OPENAI_BASE_URL").

(** ** [OpenAIGenerator.__init__] *)

(** The attributes the constructor sets on [self]. *)
Module OpenAIGenerator.
Record t : Type := {
  name : string;
  description : string;
  context_window : Z;
  config : gmap string InputConfig
}.
End OpenAIGenerator.

(** Modelled from the spec: the constructor of the [Generator] base class is
    not in the source; the configuration it leaves holds no option, the four
    named options being all that the adapter exposes. *)
Definition Generator_config : gmap string InputConfig := ∅.

Definition default_system_message : string :=
  "You are a professional and concise customer support assistant for an online service."
  +:+ PyStr.nl +:+ PyStr.nl +:+
  "Your primary goals are:" +:+ PyStr.nl +:+
  "1. Provide clear, direct, and helpful answers." +:+ PyStr.nl +:+
  "2. Avoid unnecessary details or filler phrases." +:+ PyStr.nl +:+
  "3. Use simple language, even for technical topics." +:+ PyStr.nl +:+
  "4. Give examples when it helps clarify the solution." +:+ PyStr.nl +:+
  "5. Never make up information. Say 'I don't know' if unsure."
  +:+ PyStr.nl +:+ PyStr.nl +:+
  "Examples:" +:+ PyStr.nl +:+
  "User: How can I reset my password?" +:+ PyStr.nl +:+
  "Assistant: Click on 'Forgot password' at login and follow the instructions."
  +:+ PyStr.nl +:+ PyStr.nl +:+
  "User: I want to cancel my subscription." +:+ PyStr.nl +:+
  "Assistant: Go to 'Account Settings' → 'Billing' → click 'Cancel Subscription'."
  +:+ PyStr.nl +:+ PyStr.nl +:+
  "If the user is frustrated, stay calm and offer solutions politely." +:+ PyStr.nl +:+
  "Always stay on topic and respond in a maximum of 2 to 3 short sentences.".

Definition model_option (default_model : json) (models : list json) : InputConfig :=
  {| type := "dropdown"; value := default_model;
     description := "Select an OpenAI Model"; values := models |}.

Definition system_message_option : InputConfig :=
  {| type := "textarea"; value := JStr default_system_message;
     description := "System prompt that defines the assistants behavior and tone.";
     values := [] |}.

Definition api_key_option : InputConfig :=
  {| type := "password"; value := JStr "";
     description := "You can set your OpenAI API Key here or set it as environment variable `OPENAI_API_KEY`";
     values := [] |}.

Definition url_option : InputConfig :=
  {| type := "text"; value := JStr "https://api.openai.com/v1";
     description := "You can change the Base URL here if needed";
     values := [] |}.

(** [models[0]] *)
Definition first_model (models : list json) : result json :=
  match models !! 0%nat with
  | Some m => Ok m
  | None => Raise IndexError
  end.

Definition __init__ (w : World) : M OpenAIGenerator.t :=
  let api_key := get_token w "OPENAI_API_KEY" in
  let base_url := resolved_base_url w in
  models ← get_models w api_key base_url;
  (* the second argument of [os.getenv] is evaluated before the call *)
  first ← lift (first_model models);
  let default_model := default first (JStr <$> environ w !! "OPENAI_MODEL") in
  let config := <["Model" := model_option default_model models]> Generator_config in
  let config := <["System Message" := system_message_option]> config in
  let config :=
    match get_token w "OPENAI_API_KEY" with
    | None => <["API Key" := api_key_option]> config
    | Some _ => config
    end in
  let config :=
    match environ w !! "OPENAI_BASE_URL" with
    | None => <["URL" := url_option]> config
    | Some _ => config
    end in
  mret {| OpenAIGenerator.name := "OpenAI";
          OpenAIGenerator.description :=
            "Using OpenAI LLM models to generate answers to queries";
          OpenAIGenerator.context_window := 10000;
          OpenAIGenerator.config := config |}.

(** ** [OpenAIGenerator.prepare_messages]

    The method builds a list object and appends to it; list objects live in a
    store, addressed by position. *)

Module Store.

Abbreviation t := (list (list Message.t)).

(** A new list object. *)
Definition new (init : list Message.t) (h : t) : nat * t :=
  (length h, h ++ [init]).

(** [l.append(x)] *)
Definition append (l : nat) (x : Message.t) (h : t) : t :=
  alter (λ xs, xs ++ [x]) l h.

End Store.

Definition system_turn (system_message : json) : Message.t :=
  {| Message.role := "system"; Message.content := system_message |}.

Definition conversation_turn (message : Turn.t) : Message.t :=
  {| Message.role := Turn.type message;
     Message.content := JStr (Turn.content message) |}.

Definition query_turn (query context : string) : Message.t :=
  {| Message.role := "user";
     Message.content :=
       JStr ("Answer this query: '" +:+ query
             +:+ "' with this provided context: " +:+ context) |}.

(** Returns the address of the list it built, and the store it leaves. *)
Definition prepare_messages (query context : string)
    (conversation : list Turn.t) (system_message : json) (h : Store.t)
  : nat * Store.t :=
  let '(messages, h) := Store.new [system_turn system_message] h in
  let h :=
    fold_left (λ h message, Store.append messages (conversation_turn message) h)
      conversation h in
  let h := Store.append messages (query_turn query context) h in
  (messages, h).

(** The list a caller holds after the call, when no other list object
    exists. *)
Definition prepared (query context : string) (conversation : list Turn.t)
    (system_message : json) : list Message.t :=
  let '(messages, h) :=
    prepare_messages query context conversation system_message [] in
  default [] (h !! messages).

(** ** [OpenAIGenerator.generate_stream] *)

(** Modelled from the spec: [goldenverba.components.util.get_environment] is
    not in the source. The value of the configuration's option is preferred
    over the environment variable; with neither, resolution fails with a
    [MissingCredentialError]. *)
Definition get_environment (w : World) (config : gmap string InputConfig)
    (option_name env error_msg : string) : result json :=
  match config !! option_name with
  | Some entry => Ok (value entry)
  | None =>
    match environ w !! env with
    | Some v => Ok (JStr v)
    | None => Raise (MissingCredentialError error_msg)
    end
  end.

(** [entry.value] on the result of [config.get]: the attribute is missing both
    on [None] and on the dictionary that [config.get] is given as its default. *)
Definition option_value (entry : option InputConfig) : result json :=
  match entry with
  | Some entry => Ok (value entry)
  | None => Raise AttributeError
  end.

(** The terminal line of the event stream. *)
Definition sentinel : string := "data: [DONE]".

(** The [content] field of the [delta] of a choice, when the choice has a
    [delta] object with that field. *)
Definition delta_content (choice : list (string * json)) : option json :=
  match Py.assoc "delta" choice with
  | Some (JObj delta) => Py.assoc "content" delta
  | _ => None
  end.

(** What the loop body does with one decoded object. *)
Definition handle_event (json_line : json) : result (option chunk) :=
  choices ← Py.getitem json_line "choices";
  choice ← Py.getindex choices 0;
  has_delta ← Py.contains "delta" choice;
  has_content ←
    (if has_delta : bool
     then delta ← Py.getitem choice "delta"; Py.contains "content" delta
     else Ok false);
  if has_content : bool then
    delta ← Py.getitem choice "delta";
    content ← Py.getitem delta "content";
    reason ← Py.get choice "finish_reason";
    Ok (Some {| message := content; finish_reason := reason |})
  else
    has_reason ← Py.contains "finish_reason" choice;
    if has_reason : bool then
      reason ← Py.getitem choice "finish_reason";
      Ok (Some {| message := JStr ""; finish_reason := reason |})
    else Ok None.

(** [async for line in response.aiter_lines(): ...] *)
Fixpoint decode_stream (lines : list string) : M unit :=
  match lines with
  | [] => mret ()
  | line :: rest =>
    if PyStr.startswith line "data: " then
      if String.eqb (PyStr.strip line) sentinel then mret ()
      else
        produced ← lift (json_loads (PyStr.slice_from 6 line) ≫= handle_event);
        match produced with
        | Some c => emit (Yield c)
        | None => mret ()
        end;;
        decode_stream rest
    else decode_stream rest
  end.

(** The request of [client.stream("POST", ...)]. *)
Definition completion_request (w : World) (messages : list Message.t)
    (model openai_key openai_url : json) : HttpRequest :=
  let headers :=
    [("Content-Type", "application/json");
     ("Authorization", "Bearer " +:+ str w openai_key)] in
  let data :=
    {| messages := messages; model := model; stream := true;
       temperature := 1 # 10; max_tokens := 300 |} in
  {| method := "POST"; url := str w openai_url +:+ "/chat/completions";
     headers := headers; body := Some data |}.

Definition generate_stream (w : World) (config : gmap string InputConfig)
    (query context : string) (conversation : list Turn.t) : M unit :=
  system_message ← lift (option_value (config !! "System Message"));
  model ← lift (option_value (config !! "Model"));
  openai_key ← lift (get_environment w config "API Key" "OPENAI_API_KEY"
                       "No OpenAI API Key found");
  openai_url ← lift (get_environment w config "URL" "OPENAI_BASE_URL"
                       "https://api.openai.com/v1");
  let messages := prepared query context conversation system_message in
  let request := completion_request w messages model openai_key openai_url in
  emit (Connect request);;
  response ← lift (httpx_stream w request);
  decode_stream (lines response).

(** A line at which the loop leaves: prefixed, and the sentinel once stripped. *)
Definition terminal (line : string) : bool :=
  PyStr.startswith line "data: " && String.eqb (PyStr.strip line) sentinel.

(** The lines that carry the event prefix. *)
Definition data_lines (lines : list string) : list string :=
  List.filter (λ line, PyStr.startswith line "data: ") lines.

(** ** Sample inputs *)

Module Sample.

Import PyStr.

(** The line [data: {"choices":[{"delta":{"content":"Hi"}}]}]. *)
Definition hi_line : string :=
  "data: {" +:+ quoted "choices" +:+ ":[{" +:+ quoted "delta" +:+ ":{"
  +:+ quoted "content" +:+ ":" +:+ quoted "Hi" +:+ "}}]}".

(** The line [data: {"choices":[{"finish_reason":"stop"}]}]. *)
Definition stop_line : string :=
  "data: {" +:+ quoted "choices" +:+ ":[{" +:+ quoted "finish_reason" +:+ ":"
  +:+ quoted "stop" +:+ "}]}".

(** The body [{"data":[{"id":"text-embedding-3"},{"id":"gpt-4o"}]}]. *)
Definition models_body : string :=
  "{" +:+ quoted "data" +:+ ":[{" +:+ quoted "id" +:+ ":"
  +:+ quoted "text-embedding-3" +:+ "},{" +:+ quoted "id" +:+ ":"
  +:+ quoted "gpt-4o" +:+ "}]}".

(** The line [data: {"choices":[{"delta":null,"finish_reason":"stop"}]}]. *)
Definition null_delta_line : string :=
  "data: {" +:+ quoted "choices" +:+ ":[{" +:+ quoted "delta" +:+ ":null,"
  +:+ quoted "finish_reason" +:+ ":" +:+ quoted "stop" +:+ "}]}".

(** The body [{"data":[{"id":"text-embedding-3"}]}]. *)
Definition embedding_body : string :=
  "{" +:+ quoted "data" +:+ ":[{" +:+ quoted "id" +:+ ":"
  +:+ quoted "text-embedding-3" +:+ "}]}".

(** The body [{"error":{"message":"Incorrect API key"}}]. *)
Definition error_body : string :=
  "{" +:+ quoted "error" +:+ ":{" +:+ quoted "message" +:+ ":"
  +:+ quoted "Incorrect API key" +:+ "}}".

(** No ambient value, no reachable network. *)
Definition offline : World :=
  {| get_token := λ _, None;
     environ := ∅;
     repr := λ _, "";
     requests_get := λ _, Raise ConnectionError;
     httpx_stream := λ _, Raise ConnectionError |}.

(** Key and base URL in the environment; both endpoints answer every request
    with the given status, the discovery endpoint with [body], the
    completion endpoint with [stream_lines]. *)
Definition online (status : Z) (body : string) (stream_lines : list string)
  : World :=
  {| get_token := λ env,
       if String.eqb env "OPENAI_API_KEY" then Some "sk-env" else None;
     environ :=
       {[ "OPENAI_API_KEY" := "sk-env";
          "OPENAI_BASE_URL" := "https://env.example/v1" ]};
     repr := λ _, "";
     requests_get := λ _, Ok {| status_code := status; text := body |};
     httpx_stream := λ _,
       Ok {| stream_status_code := status; lines := stream_lines |} |}.

(** A credential in the environment, and a network that fails. *)
Definition unreachable : World :=
  {| get_token := λ env,
       if String.eqb env "OPENAI_API_KEY" then Some "sk-env" else None;
     environ := {[ "OPENAI_API_KEY" := "sk-env" ]};
     repr := λ _, "";
     requests_get := λ _, Raise ConnectionError;
     httpx_stream := λ _, Raise ConnectionError |}.

(** What the constructor builds in [offline]. *)
Definition offline_generator : OpenAIGenerator.t :=
  {| OpenAIGenerator.name := "OpenAI";
     OpenAIGenerator.description :=
       "Using OpenAI LLM models to generate answers to queries";
     OpenAIGenerator.context_window := 10000;
     OpenAIGenerator.config :=
       <["URL" := url_option]>
       (<["API Key" := api_key_option]>
        (<["System Message" := system_message_option]>
         (<["Model" := model_option (JStr "gpt-4o") default_models]> ∅))) |}.

(** A configuration with the two options a call needs. *)
Definition base_config : gmap string InputConfig :=
  {[ "Model" := model_option (JStr "gpt-4o") default_models;
     "System Message" := system_message_option ]}.

(** The same, with a key and a URL entered by the user. *)
Definition user_config : gmap string InputConfig :=
  <["API Key" := {| type := "password"; value := JStr "sk-user";
                    description := ""; values := [] |}]>
  (<["URL" := {| type := "text"; value := JStr "https://user.example/v1";
                 description := ""; values := [] |}]> base_config).

End Sample.

(** * Properties *)

(** ** The monad of traces *)

Section monad_laws.
Context {A B : Type}.
Implicit Types (f : A → M B) (k : M B).

Lemma bind_lift_ok (a : A) f : lift (Ok a) ≫= f = f a.
Proof. unfold mbind, M_bind, lift; simpl. by destruct (f a). Qed.

Lemma bind_lift_raise (e : exn) f : lift (Raise e) ≫= f = ([], Raise e).
Proof. reflexivity. Qed.

Lemma bind_ret (a : A) f : mret a ≫= f = f a.
Proof. apply bind_lift_ok. Qed.

Lemma bind_emit (ev : event) k : (emit ev ;; k) = (ev :: k.1, k.2).
Proof. reflexivity. Qed.

End monad_laws.

(** ** Prompt assembly *)

Section prepare_messages.
Implicit Types (h : Store.t) (conversation : list Turn.t).

Lemma append_lookup h r x l :
  h !! r = Some l → Store.append r x h !! r = Some (l ++ [x]).
Proof.
  intros Hr. unfold Store.append. by rewrite list_lookup_alter_eq, Hr.
Qed.

Lemma append_lookup_ne h r a x : r ≠ a → Store.append r x h !! a = h !! a.
Proof. intros Hne. unfold Store.append. by rewrite list_lookup_alter_ne. Qed.

(** The loop over the conversation extends the list at [r] by one message per
    turn, in order. *)
Lemma append_turns_lookup conversation : ∀ h r l,
  h !! r = Some l →
  fold_left (λ h message, Store.append r (conversation_turn message) h)
    conversation h !! r
  = Some (l ++ map conversation_turn conversation).
Proof.
  induction conversation as [|t conversation IH]; intros h r l Hr; simpl.
  - by rewrite app_nil_r.
  - rewrite (IH _ r (l ++ [conversation_turn t])).
    + by rewrite <- app_assoc.
    + by apply append_lookup.
Qed.

Lemma append_turns_lookup_ne conversation : ∀ h r a,
  r ≠ a →
  fold_left (λ h message, Store.append r (conversation_turn message) h)
    conversation h !! a
  = h !! a.
Proof.
  induction conversation as [|t conversation IH]; intros h r a Hne; simpl.
  - done.
  - rewrite IH by done. by apply append_lookup_ne.
Qed.

(** The list object the method returns. *)
Lemma prepare_messages_returns query context conversation system_message h :
  (prepare_messages query context conversation system_message h).2
    !! (prepare_messages query context conversation system_message h).1
  = Some (system_turn system_message
          :: map conversation_turn conversation ++ [query_turn query context]).
Proof.
  unfold prepare_messages, Store.new; simpl.
  rewrite (append_lookup _ _ _
             (system_turn system_message :: map conversation_turn conversation)).
  - done.
  - rewrite (append_turns_lookup _ _ _ [system_turn system_message]); [done|].
    by rewrite list_lookup_middle.
Qed.

(** Objects that existed before the call are left as they were. *)
Lemma prepare_messages_frame query context conversation system_message h a l :
  h !! a = Some l →
  (prepare_messages query context conversation system_message h).2 !! a = Some l.
Proof.
  intros Ha. unfold prepare_messages, Store.new; simpl.
  assert (length h ≠ a) as Hne.
  { apply lookup_lt_Some in Ha. lia. }
  rewrite append_lookup_ne, append_turns_lookup_ne by done.
  by apply lookup_app_l_Some.
Qed.

(** In any store, the list the method returns is [prepared]. *)
Lemma prepare_messages_prepared query context conversation system_message h :
  (prepare_messages query context conversation system_message h).2
    !! (prepare_messages query context conversation system_message h).1
  = Some (prepared query context conversation system_message).
Proof.
  rewrite prepare_messages_returns. unfold prepared.
  pose proof (prepare_messages_returns query context conversation
                system_message []) as H.
  destruct (prepare_messages _ _ _ _ []) as [r h']; simpl in *. by rewrite H.
Qed.

Lemma prepared_eq query context conversation system_message :
  prepared query context conversation system_message
  = system_turn system_message
    :: map conversation_turn conversation ++ [query_turn query context].
Proof.
  unfold prepared.
  pose proof (prepare_messages_returns query context conversation
                system_message []) as H.
  destruct (prepare_messages _ _ _ _ _) as [r h']; simpl in *. by rewrite H.
Qed.

(** C4: whatever the store, the list that prepare_messages returns has
    length len(conversation) + 2; its first element is the system message
    under the role system; element i + 1 is turn i of the conversation, role
    and content as given; its last element is a user message whose content is
    the fixed template filled with the query and the context. *)
Theorem C4_prepare_messages_layout
    (query context : string) (conversation : list Turn.t)
    (system_message : json) (h : Store.t) :
  let out := prepare_messages query context conversation system_message h in
  ∃ messages : list Message.t,
    out.2 !! out.1 = Some messages
    ∧ length messages = (length conversation + 2)%nat
    ∧ messages !! 0%nat
      = Some {| Message.role := "system"; Message.content := system_message |}
    ∧ (∀ i turn, conversation !! i = Some turn →
         messages !! S i
         = Some {| Message.role := Turn.type turn;
                   Message.content := JStr (Turn.content turn) |})
    ∧ last messages
      = Some {| Message.role := "user";
                Message.content :=
                  JStr ("Answer this query: '" +:+ query
                        +:+ "' with this provided context: " +:+ context) |}.
Proof.
  intros out. eexists. split; [apply prepare_messages_returns|].
  repeat split.
  - simpl. rewrite length_app, length_map. simpl. lia.
  - intros i turn Hi. simpl.
    apply lookup_app_l_Some. rewrite list_lookup_fmap, Hi. done.
  - rewrite app_comm_cons. apply last_snoc.
Qed.

(** C8: prepare_messages is deterministic and pure. Two calls with the same
    arguments return equal lists whatever the two stores they run in hold,
    and a call changes no list object that existed before it; the method
    takes no world and performs no event. *)
Theorem C8_prepare_messages_pure
    (query context : string) (conversation : list Turn.t)
    (system_message : json) (h1 h2 : Store.t) :
  let out1 := prepare_messages query context conversation system_message h1 in
  let out2 := prepare_messages query context conversation system_message h2 in
  is_Some (out1.2 !! out1.1)
  ∧ out1.2 !! out1.1 = out2.2 !! out2.1
  ∧ (∀ a, a < length h1 → out1.2 !! a = h1 !! a)
  ∧ (∀ a, a < length h2 → out2.2 !! a = h2 !! a).
Proof.
  intros out1 out2. subst out1 out2.
  rewrite !prepare_messages_returns.
  split; [by eexists|]. split; [done|].
  split; intros a Ha; apply lookup_lt_is_Some_2 in Ha as [l Hl];
    rewrite Hl; by apply prepare_messages_frame.
Qed.

End prepare_messages.

Lemma C4_prepare_messages_layout_witness :
  ∃ messages : list Message.t,
    (prepare_messages "q" "c"
       [{| Turn.type := "user"; Turn.content := "hello" |};
        {| Turn.type := "assistant"; Turn.content := "hi there" |}]
       (JStr "be brief") [[]]).2 !! 1%nat = Some messages
    ∧ length messages = 4%nat
    ∧ messages !! 2%nat
      = Some {| Message.role := "assistant";
                Message.content := JStr "hi there" |}
    ∧ last messages
      = Some {| Message.role := "user";
                Message.content :=
                  JStr "Answer this query: 'q' with this provided context: c" |}.
Proof.
  destruct (C4_prepare_messages_layout "q" "c"
              [{| Turn.type := "user"; Turn.content := "hello" |};
               {| Turn.type := "assistant"; Turn.content := "hi there" |}]
              (JStr "be brief") [[]])
    as (messages & Hout & Hlen & _ & Hturns & Hlast).
  exists messages. split; [exact Hout|]. split; [exact Hlen|].
  split; [|exact Hlast].
  apply (Hturns 1%nat {| Turn.type := "assistant"; Turn.content := "hi there" |}).
  reflexivity.
Defined.

Lemma C8_prepare_messages_pure_witness :
  let turns := [{| Turn.type := "user"; Turn.content := "hello" |}] in
  let busy := [[system_turn JNull]; []] in
  (prepare_messages "q" "c" turns (JStr "be brief") []).2 !! 0%nat
  = (prepare_messages "q" "c" turns (JStr "be brief") busy).2 !! 2%nat
  ∧ (prepare_messages "q" "c" turns (JStr "be brief") busy).2 !! 0%nat
    = Some [system_turn JNull].
Proof.
  intros turns busy.
  destruct (C8_prepare_messages_pure "q" "c" turns (JStr "be brief") [] busy)
    as (_ & Hsame & _ & Hframe).
  split; [exact Hsame|].
  apply (Hframe 0%nat). simpl. lia.
Defined.

(** ** Stream decoding *)

Section decode_stream.
Implicit Types (line : string) (pre post rest : list string).

(** One turn of the loop. *)
Lemma decode_stream_cons line rest :
  decode_stream (line :: rest)
  = if PyStr.startswith line "data: " then
      if String.eqb (PyStr.strip line) sentinel then mret ()
      else
        match json_loads (PyStr.slice_from 6 line) ≫= handle_event with
        | Ok (Some c) =>
          (Yield c :: (decode_stream rest).1, (decode_stream rest).2)
        | Ok None => decode_stream rest
        | Raise e => ([], Raise e)
        end
    else decode_stream rest.
Proof.
  cbn [decode_stream]. destruct (PyStr.startswith _ _); [|done].
  destruct (String.eqb _ _); [done|].
  destruct (json_loads _ ≫= handle_event) as [[c|]|e].
  - by rewrite bind_lift_ok, bind_emit.
  - by rewrite bind_lift_ok, bind_ret.
  - done.
Qed.

(** The loop leaves at the sentinel: what follows it is never read. *)
Lemma decode_stream_done pre line post :
  PyStr.startswith line "data: " = true →
  PyStr.strip line = sentinel →
  decode_stream (pre ++ line :: post) = decode_stream pre.
Proof.
  intros Hprefix Hstrip.
  induction pre as [|l pre IH].
  - simpl app. rewrite decode_stream_cons, Hprefix, Hstrip, String.eqb_refl.
    done.
  - rewrite <- app_comm_cons, !decode_stream_cons, IH. done.
Qed.

(** A line without the prefix leaves no mark. *)
Lemma decode_stream_skip pre line post :
  PyStr.startswith line "data: " = false →
  decode_stream (pre ++ line :: post) = decode_stream (pre ++ post).
Proof.
  intros Hprefix.
  induction pre as [|l pre IH].
  - simpl app. by rewrite decode_stream_cons, Hprefix.
  - rewrite <- !app_comm_cons, !decode_stream_cons, IH. done.
Qed.

(** The loop performs no network request. *)
Lemma decode_stream_connections rest : connections (decode_stream rest).1 = [].
Proof.
  induction rest as [|l rest IH]; [done|].
  rewrite decode_stream_cons.
  destruct (PyStr.startswith _ _); [|done].
  destruct (String.eqb _ _); [done|].
  by destruct (json_loads _ ≫= handle_event) as [[c|]|e].
Qed.

Lemma connections_connect (request : HttpRequest) (trace : list event) :
  connections (Connect request :: trace) = request :: connections trace.
Proof. reflexivity. Qed.

End decode_stream.

(** C2, as the code has it: a line that starts with the prefix and whose
    stripped form is the sentinel ends the sequence, with no chunk for it and
    none for the lines after it; a line without the prefix is ignored; the
    stream made of the Hi line and the sentinel yields the one chunk
    (Hi, null) and then ends normally, in the loop and in a whole call. *)
Theorem C2_sentinel_ends_stream (pre post : list string) (line : string) :
  (PyStr.startswith line "data: " = true →
   PyStr.strip line = "data: [DONE]" →
   decode_stream (pre ++ line :: post) = decode_stream pre)
  ∧ (PyStr.startswith line "data: " = false →
     decode_stream (pre ++ line :: post) = decode_stream (pre ++ post))
  ∧ decode_stream [Sample.hi_line; "data: [DONE]"]
    = ([Yield {| message := JStr "Hi"; finish_reason := JNull |}], Ok ())
  ∧ (let run :=
       generate_stream
         (Sample.online 200%Z "" [Sample.hi_line; "data: [DONE]"])
         Sample.base_config "q" "c" [] in
     yielded run.1 = [{| message := JStr "Hi"; finish_reason := JNull |}]
     ∧ run.2 = Ok ()).
Proof.
  split; [apply decode_stream_done|].
  split; [apply decode_stream_skip|].
  split; [by vm_compute|]. split; by vm_compute.
Qed.

Lemma C2_sentinel_ends_stream_witness :
  decode_stream ([Sample.hi_line] ++ "data: [DONE]  " :: [Sample.stop_line])
  = decode_stream [Sample.hi_line]
  ∧ decode_stream ([Sample.hi_line] ++ ": keep-alive" :: [Sample.stop_line])
    = decode_stream ([Sample.hi_line] ++ [Sample.stop_line]).
Proof.
  split.
  - apply (C2_sentinel_ends_stream [Sample.hi_line] [Sample.stop_line]
             "data: [DONE]  "); vm_compute; reflexivity.
  - apply (C2_sentinel_ends_stream [Sample.hi_line] [Sample.stop_line]
             ": keep-alive"); vm_compute; reflexivity.
Defined.

(** C2, as stated, fails: the stripped form of a line that starts with a
    space is the sentinel, yet the line is passed over and the line after it
    is decoded into a chunk. *)
Lemma C2_leading_space_counterexample :
  PyStr.strip " data: [DONE]" = "data: [DONE]"
  ∧ decode_stream [" data: [DONE]"; Sample.hi_line]
    = ([Yield {| message := JStr "Hi"; finish_reason := JNull |}], Ok ())
  ∧ ¬ (∀ pre line post,
         PyStr.strip line = "data: [DONE]" →
         decode_stream (pre ++ line :: post) = decode_stream pre).
Proof.
  split; [by vm_compute|]. split; [by vm_compute|].
  intros H. specialize (H [] " data: [DONE]" [Sample.hi_line] eq_refl).
  vm_compute in H. discriminate H.
Qed.

(** C3, as the code has it: when [choices[0]] is an object whose [delta], if
    it has one, is an object, the decoded event has exactly one of three
    outcomes. With a [content] field in the delta, a chunk with that content
    and the choice's finish reason, null when absent; otherwise, with a
    [finish_reason] field, a chunk with empty text and that reason; otherwise
    no chunk. The stop line yields the chunk (empty text, stop). *)
Theorem C3_event_outcomes (json_line choices : json)
    (choice : list (string * json)) :
  Py.getitem json_line "choices" = Ok choices →
  Py.getindex choices 0 = Ok (JObj choice) →
  (∀ delta, Py.assoc "delta" choice = Some delta → ∃ fields, delta = JObj fields) →
  handle_event json_line
  = Ok match delta_content choice with
       | Some text =>
         Some {| message := text;
                 finish_reason := default JNull (Py.assoc "finish_reason" choice) |}
       | None =>
         match Py.assoc "finish_reason" choice with
         | Some reason => Some {| message := JStr ""; finish_reason := reason |}
         | None => None
         end
       end
  ∧ decode_stream [Sample.stop_line]
    = ([Yield {| message := JStr ""; finish_reason := JStr "stop" |}], Ok ()).
Proof.
  intros Hchoices Hchoice Hdelta. split; [|by vm_compute].
  unfold handle_event, delta_content.
  rewrite Hchoices; cbn [mbind result_bind]. rewrite Hchoice; cbn [mbind result_bind].
  cbn [Py.contains Py.getitem Py.get].
  destruct (Py.assoc "delta" choice) as [delta|] eqn:Hd.
  - destruct (Hdelta delta eq_refl) as [fields ->].
    cbn [mbind result_bind Py.contains Py.getitem].
    destruct (Py.assoc "content" fields) as [text|]; cbn [mbind result_bind].
    + done.
    + by destruct (Py.assoc "finish_reason" choice).
  - cbn [mbind result_bind]. by destruct (Py.assoc "finish_reason" choice).
Qed.

Lemma C3_event_outcomes_witness :
  handle_event
    (JObj [("choices",
            JArr [JObj [("index", JInt 0);
                        ("delta", JObj [("content", JStr "Hi")]);
                        ("finish_reason", JNull)]])])
  = Ok (Some {| message := JStr "Hi"; finish_reason := JNull |}).
Proof.
  refine (proj1 (C3_event_outcomes
                   (JObj [("choices",
                           JArr [JObj [("index", JInt 0);
                                       ("delta", JObj [("content", JStr "Hi")]);
                                       ("finish_reason", JNull)]])])
                   (JArr [JObj [("index", JInt 0);
                                ("delta", JObj [("content", JStr "Hi")]);
                                ("finish_reason", JNull)]])
                   [("index", JInt 0);
                    ("delta", JObj [("content", JStr "Hi")]);
                    ("finish_reason", JNull)]
                   eq_refl eq_refl _)).
  intros delta H. vm_compute in H. injection H as <-. by eexists.
Defined.

(** C3, as stated, fails: an event whose choice has a null [delta] and a
    [finish_reason] has no delta with a content field and has a finish
    reason, yet it produces no chunk: it raises. *)
Lemma C3_null_delta_counterexample :
  json_loads (PyStr.slice_from 6 Sample.null_delta_line)
  = Ok (JObj [("choices",
               JArr [JObj [("delta", JNull); ("finish_reason", JStr "stop")]])])
  ∧ handle_event
      (JObj [("choices",
              JArr [JObj [("delta", JNull); ("finish_reason", JStr "stop")]])])
    = Raise TypeError
  ∧ decode_stream [Sample.null_delta_line] = ([], Raise TypeError).
Proof. split; [by vm_compute|]. split; by vm_compute. Qed.

(** ** Generation *)

Section generate_stream.
Context (w : World) (config : gmap string InputConfig).
Context (query context : string) (conversation : list Turn.t).

(** Once the four values are resolved, the call opens the connection and
    decodes the lines of the response, whatever its status. *)
Lemma generate_stream_resolved (system_message model : InputConfig)
    (openai_key openai_url : json) :
  config !! "System Message" = Some system_message →
  config !! "Model" = Some model →
  get_environment w config "API Key" "OPENAI_API_KEY" "No OpenAI API Key found"
  = Ok openai_key →
  get_environment w config "URL" "OPENAI_BASE_URL" "https://api.openai.com/v1"
  = Ok openai_url →
  let request :=
    completion_request w
      (prepared query context conversation (value system_message))
      (value model) openai_key openai_url in
  generate_stream w config query context conversation
  = match httpx_stream w request with
    | Ok response =>
      (Connect request :: (decode_stream (lines response)).1,
       (decode_stream (lines response)).2)
    | Raise e => ([Connect request], Raise e)
    end.
Proof.
  intros Hsm Hmodel Hkey Hurl request. unfold generate_stream.
  rewrite Hsm, Hmodel, Hkey, Hurl. cbn [option_value].
  rewrite !bind_lift_ok, bind_emit. fold request.
  destruct (httpx_stream w request) as [response|e].
  - by rewrite bind_lift_ok.
  - done.
Qed.

(** Without a key in either place the call stops at the resolution of the
    key. *)
Lemma generate_stream_no_key (system_message model : InputConfig) :
  config !! "System Message" = Some system_message →
  config !! "Model" = Some model →
  config !! "API Key" = None →
  environ w !! "OPENAI_API_KEY" = None →
  generate_stream w config query context conversation
  = ([], Raise (MissingCredentialError "No OpenAI API Key found")).
Proof.
  intros Hsm Hmodel Hkey Henv. unfold generate_stream.
  rewrite Hsm, Hmodel. cbn [option_value]. rewrite !bind_lift_ok.
  unfold get_environment. by rewrite Hkey, Henv.
Qed.

End generate_stream.

(** C1, on the code: the status of the streaming response is never read. With
    key and URL in the environment, a server that answers with any status
    has its lines decoded as on success. A 500 answer that carries the Hi
    line yields the chunk and ends normally; a 401 answer with an error body
    yields nothing and ends normally; neither raises. *)
Theorem C1_status_is_not_checked (status : Z) (stream_lines : list string)
    (query context : string) (conversation : list Turn.t) :
  let run (body_lines : list string) (st : Z) :=
    generate_stream (Sample.online st "" body_lines) Sample.base_config
      query context conversation in
  yielded (run stream_lines status).1 = yielded (decode_stream stream_lines).1
  ∧ (run stream_lines status).2 = (decode_stream stream_lines).2
  ∧ yielded (run [Sample.hi_line; "data: [DONE]"] 500%Z).1
    = [{| message := JStr "Hi"; finish_reason := JNull |}]
  ∧ (run [Sample.hi_line; "data: [DONE]"] 500%Z).2 = Ok ()
  ∧ yielded (run [Sample.error_body] 401%Z).1 = []
  ∧ (run [Sample.error_body] 401%Z).2 = Ok ().
Proof.
  intros run.
  assert (∀ body_lines st,
    run body_lines st
    = (Connect
         (completion_request (Sample.online st "" body_lines)
            (prepared query context conversation
               (value system_message_option))
            (JStr "gpt-4o") (JStr "sk-env") (JStr "https://env.example/v1"))
       :: (decode_stream body_lines).1, (decode_stream body_lines).2)) as Hrun.
  { intros body_lines st. unfold run.
    by rewrite (generate_stream_resolved _ _ _ _ _ system_message_option
                  (model_option (JStr "gpt-4o") default_models)
                  (JStr "sk-env") (JStr "https://env.example/v1")). }
  rewrite !Hrun. cbn [fst snd yielded omap].
  repeat split; by vm_compute.
Qed.

(** C5: with the two required options in the configuration, a call that
    finds neither an [API Key] option nor the ambient credential fails with
    [MissingCredentialError] before any event, hence before any connection;
    and when the configuration holds an [API Key] and a [URL] option, the
    request goes to the configured URL with the configured key, whatever the
    environment holds. *)
Theorem C5_credential_resolution (w : World)
    (config : gmap string InputConfig) (query context : string)
    (conversation : list Turn.t) (system_message model : InputConfig) :
  config !! "System Message" = Some system_message →
  config !! "Model" = Some model →
  (config !! "API Key" = None →
   environ w !! "OPENAI_API_KEY" = None →
   generate_stream w config query context conversation
   = ([], Raise (MissingCredentialError "No OpenAI API Key found")))
  ∧ (∀ key base : InputConfig,
       config !! "API Key" = Some key →
       config !! "URL" = Some base →
       connections (generate_stream w config query context conversation).1
       = [{| method := "POST";
             url := str w (value base) +:+ "/chat/completions";
             headers :=
               [("Content-Type", "application/json");
                ("Authorization", "Bearer " +:+ str w (value key))];
             body :=
               Some {| messages :=
                         prepared query context conversation
                           (value system_message);
                       model := value model;
                       stream := true;
                       temperature := 1 # 10;
                       max_tokens := 300 |} |}]).
Proof.
  intros Hsm Hmodel. split.
  - by apply generate_stream_no_key with system_message model.
  - intros key base Hkey Hbase.
    rewrite (generate_stream_resolved _ _ _ _ _ system_message model
               (value key) (value base)); try done.
    + destruct (httpx_stream w _) as [response|e]; [|done].
      cbn [fst]. by rewrite connections_connect, decode_stream_connections.
    + unfold get_environment. by rewrite Hkey.
    + unfold get_environment. by rewrite Hbase.
Qed.

Lemma C5_credential_resolution_witness :
  generate_stream Sample.offline Sample.base_config "q" "c" []
  = ([], Raise (MissingCredentialError "No OpenAI API Key found"))
  ∧ url <$> connections
      (generate_stream (Sample.online 200%Z "" []) Sample.user_config "q" "c" []).1
    = ["https://user.example/v1/chat/completions"].
Proof.
  split.
  - apply (C5_credential_resolution Sample.offline Sample.base_config "q" "c" []
             system_message_option (model_option (JStr "gpt-4o") default_models));
      reflexivity.
  - rewrite (proj2 (C5_credential_resolution (Sample.online 200%Z "" [])
               Sample.user_config "q" "c" [] system_message_option
               (model_option (JStr "gpt-4o") default_models) eq_refl eq_refl)
             {| type := "password"; value := JStr "sk-user";
                description := ""; values := [] |}
             {| type := "text"; value := JStr "https://user.example/v1";
                description := ""; values := [] |} eq_refl eq_refl).
    reflexivity.
Defined.

(** ** Model discovery *)

Section get_models.
Context (w : World).
Implicit Types (token url : string) (response : Response).

Lemma fetch_models_eq token url :
  fetch_models w token url
  = ([Connect (models_request token url)],
     requests_get w (models_request token url) ≫= read_models).
Proof.
  unfold fetch_models. rewrite bind_emit.
  destruct (requests_get w _) as [response|e]; [|done].
  by rewrite bind_lift_ok.
Qed.

(** With a token, the call is the fetch, and a fetch that raises is replaced
    by a log line and the fixed list. *)
Lemma get_models_eq token url :
  get_models w (Some token) url
  = match requests_get w (models_request token url) ≫= read_models with
    | Ok ids => ([Connect (models_request token url)], Ok ids)
    | Raise e =>
      ([Connect (models_request token url); Info e], Ok default_models)
    end.
Proof.
  unfold get_models. rewrite fetch_models_eq. unfold try_except. cbn [fst snd].
  by destruct (requests_get w _ ≫= read_models).
Qed.

Lemma get_models_no_token url : get_models w None url = ([], Ok default_models).
Proof. reflexivity. Qed.

Lemma get_models_raised token url e :
  requests_get w (models_request token url) ≫= read_models = Raise e →
  get_models w (Some token) url
  = ([Connect (models_request token url); Info e], Ok default_models).
Proof. intros H. by rewrite get_models_eq, H. Qed.

Lemma raise_for_status_error response :
  (400 ≤ status_code response < 600)%Z →
  read_models response = Raise (HTTPError (status_code response)).
Proof.
  intros H. unfold read_models, raise_for_status.
  by rewrite bool_decide_eq_true_2.
Qed.

(** The comprehension on entries whose identifiers are strings. *)
Lemma chat_model_ids_strings (entries : list json) (ids : list string) :
  Forall2 has_id entries ids →
  chat_model_ids entries
  = Ok (JStr <$> List.filter (λ s, negb (PyStr.contains "embedding" s)) ids).
Proof.
  induction 1 as [|entry s entries ids (fields & -> & Hid) _ IH]; [done|].
  cbn [chat_model_ids Py.getitem]. rewrite Hid. cbn [mbind result_bind Py.contains].
  cbn [List.filter]. destruct (PyStr.contains "embedding" s); cbn [negb].
  - exact IH.
  - by rewrite IH.
Qed.

Lemma get_models_success token url response payload entries ids :
  requests_get w (models_request token url) = Ok response →
  raise_for_status response = Ok () →
  json_loads (text response) = Ok payload →
  Py.getitem payload "data" = Ok (JArr entries) →
  Forall2 has_id entries ids →
  get_models w (Some token) url
  = ([Connect (models_request token url)],
     Ok (JStr <$> List.filter (λ s, negb (PyStr.contains "embedding" s)) ids)).
Proof.
  intros Hget Hstatus Hjson Hdata Hids.
  rewrite get_models_eq, Hget. cbn [mbind result_bind]. unfold read_models.
  rewrite Hstatus, Hjson. cbn [mbind result_bind]. rewrite Hdata.
  cbn [mbind result_bind Py.iter].
  by rewrite (chat_model_ids_strings entries ids Hids).
Qed.

End get_models.

(** C6, as the code has it: get_models never raises; without a credential it
    returns the fixed list and performs no event, hence no network access;
    with one, a failed request, a 4xx or 5xx status, a body that is not
    JSON, and any other error raised while the response is read are each
    logged and answered with the fixed list. *)
Theorem C6_get_models_never_raises (w : World) (token : option string)
    (url : string) :
  (∃ trace models, get_models w token url = (trace, Ok models))
  ∧ (token = None → get_models w token url = ([], Ok default_models))
  ∧ (∀ t, token = Some t →
       let request := models_request t url in
       (∀ e, requests_get w request = Raise e →
          get_models w token url = ([Connect request; Info e], Ok default_models))
       ∧ (∀ response, requests_get w request = Ok response →
            ((400 ≤ status_code response < 600)%Z →
             get_models w token url
             = ([Connect request; Info (HTTPError (status_code response))],
                Ok default_models))
            ∧ (¬ (400 ≤ status_code response < 600)%Z →
               json_loads (text response) = Raise JSONDecodeError →
               get_models w token url
               = ([Connect request; Info JSONDecodeError], Ok default_models))
            ∧ (∀ e, read_models response = Raise e →
                 get_models w token url
                 = ([Connect request; Info e], Ok default_models)))).
Proof.
  split.
  { destruct token as [t|]; [|by eexists _, _].
    rewrite get_models_eq.
    destruct (requests_get w _ ≫= read_models); by eexists _, _. }
  split; [by intros ->|].
  intros t -> request. subst request. split.
  - intros e He. apply get_models_raised. by rewrite He.
  - intros response Hget. repeat split.
    + intros Hstatus. apply get_models_raised. rewrite Hget. cbn [mbind result_bind].
      by apply raise_for_status_error.
    + intros Hstatus Hjson. apply get_models_raised. rewrite Hget.
      cbn [mbind result_bind]. unfold read_models, raise_for_status.
      rewrite bool_decide_eq_false_2 by done. by rewrite Hjson.
    + intros e He. apply get_models_raised. by rewrite Hget.
Qed.

Lemma C6_get_models_never_raises_witness :
  get_models Sample.offline None "https://api.openai.com/v1"
  = ([], Ok default_models)
  ∧ get_models (Sample.online 503%Z "Service Unavailable" []) (Some "sk-env")
      "https://env.example/v1"
    = ([Connect (models_request "sk-env" "https://env.example/v1");
        Info (HTTPError 503%Z)], Ok default_models).
Proof.
  split.
  - by apply (C6_get_models_never_raises Sample.offline None).
  - destruct (C6_get_models_never_raises
                (Sample.online 503%Z "Service Unavailable" []) (Some "sk-env")
                "https://env.example/v1") as (_ & _ & H).
    destruct (H "sk-env" eq_refl) as [_ Hresponse].
    destruct (Hresponse {| status_code := 503%Z; text := "Service Unavailable" |}
                eq_refl) as [Hstatus _].
    apply Hstatus. simpl. lia.
Defined.

(** C6, as stated, fails: a 300 answer is not a 2xx one, yet its body is read
    and its models are returned, with no log line and no fallback. *)
Lemma C6_status_300_counterexample :
  let w := Sample.online 300%Z Sample.models_body [] in
  requests_get w (models_request "sk-env" "https://env.example/v1")
  = Ok {| status_code := 300%Z; text := Sample.models_body |}
  ∧ ¬ (200 ≤ 300 < 300)%Z
  ∧ get_models w (Some "sk-env") "https://env.example/v1"
    = ([Connect (models_request "sk-env" "https://env.example/v1")],
       Ok [JStr "gpt-4o"])
  ∧ (get_models w (Some "sk-env") "https://env.example/v1").2
    ≠ Ok default_models.
Proof.
  intros w. split; [done|]. split; [lia|]. split; [by vm_compute|].
  by vm_compute.
Qed.

(** C7: on a response that passes the status check and whose body decodes to
    an object with a [data] array of objects with string identifiers,
    get_models returns the identifiers that do not contain the substring
    embedding, in the order of the response; the body with
    text-embedding-3 and gpt-4o gives the list with gpt-4o alone. *)
Theorem C7_get_models_filters_embeddings (w : World) (token url : string)
    (response : Response) (payload : json) (entries : list json)
    (ids : list string) :
  requests_get w (models_request token url) = Ok response →
  raise_for_status response = Ok () →
  json_loads (text response) = Ok payload →
  Py.getitem payload "data" = Ok (JArr entries) →
  Forall2 has_id entries ids →
  get_models w (Some token) url
  = ([Connect (models_request token url)],
     Ok (JStr <$> List.filter (λ s, negb (PyStr.contains "embedding" s)) ids))
  ∧ (get_models (Sample.online 200%Z Sample.models_body []) (Some "sk-env")
       "https://env.example/v1").2
    = Ok [JStr "gpt-4o"].
Proof.
  intros. split; [by eapply get_models_success|by vm_compute].
Qed.

Lemma C7_get_models_filters_embeddings_witness :
  get_models (Sample.online 200%Z Sample.models_body []) (Some "sk-env")
    "https://env.example/v1"
  = ([Connect (models_request "sk-env" "https://env.example/v1")],
     Ok [JStr "gpt-4o"]).
Proof.
  refine (proj1 (C7_get_models_filters_embeddings
                   (Sample.online 200%Z Sample.models_body []) "sk-env"
                   "https://env.example/v1"
                   {| status_code := 200%Z; text := Sample.models_body |}
                   (JObj [("data", JArr [JObj [("id", JStr "text-embedding-3")];
                                         JObj [("id", JStr "gpt-4o")]])])
                   [JObj [("id", JStr "text-embedding-3")];
                    JObj [("id", JStr "gpt-4o")]]
                   ["text-embedding-3"; "gpt-4o"]
                   eq_refl eq_refl _ eq_refl _)).
  - by vm_compute.
  - repeat constructor; by eexists.
Defined.

(** ** Construction *)

Section construction.
Context (w : World).

(** The constructor, by the catalog that discovery returned. *)
Lemma init_eq :
  __init__ w
  = let fetched :=
      get_models w (get_token w "OPENAI_API_KEY") (resolved_base_url w) in
    match fetched.2 with
    | Raise e => (fetched.1, Raise e)
    | Ok [] => (fetched.1, Raise IndexError)
    | Ok (first :: rest) =>
      let default_model := default first (JStr <$> environ w !! "OPENAI_MODEL") in
      let config :=
        <["System Message" := system_message_option]>
        (<["Model" := model_option default_model (first :: rest)]> Generator_config) in
      let config :=
        if get_token w "OPENAI_API_KEY" is None
        then <["API Key" := api_key_option]> config else config in
      let config :=
        if environ w !! "OPENAI_BASE_URL" is None
        then <["URL" := url_option]> config else config in
      (fetched.1,
       Ok {| OpenAIGenerator.name := "OpenAI";
             OpenAIGenerator.description :=
               "Using OpenAI LLM models to generate answers to queries";
             OpenAIGenerator.context_window := 10000;
             OpenAIGenerator.config := config |})
    end.
Proof.
  unfold __init__. cbn zeta.
  destruct (get_models w _ _) as [trace [[|first rest]|e]];
    unfold mbind, M_bind; cbn [fst snd first_model lift lookup list_lookup];
    try done.
  - by rewrite app_nil_r.
  - cbn [mret M_ret fst snd]. by rewrite !app_nil_r.
Qed.

Lemma filter_all_embedding (ids : list string) :
  Forall (λ s, PyStr.contains "embedding" s = true) ids →
  List.filter (λ s, negb (PyStr.contains "embedding" s)) ids = [].
Proof.
  induction 1 as [|s ids Hs _ IH]; [done|].
  cbn [List.filter]. by rewrite Hs.
Qed.

(** An empty catalog stops the constructor even when [OPENAI_MODEL] is set:
    [models[0]] is an argument of [os.getenv]. *)
Remark init_empty_catalog :
  (get_models w (get_token w "OPENAI_API_KEY") (resolved_base_url w)).2 = Ok [] →
  (__init__ w).2 = Raise IndexError.
Proof. intros H. rewrite init_eq. cbn zeta. by rewrite H. Qed.

End construction.

(** C9: after a construction that succeeds, the configuration has an
    [API Key] option exactly when the credential resolver found no
    [OPENAI_API_KEY], and a [URL] option exactly when [OPENAI_BASE_URL] is
    not set. *)
Theorem C9_config_slots (w : World) (self : OpenAIGenerator.t) :
  (__init__ w).2 = Ok self →
  (is_Some (OpenAIGenerator.config self !! "API Key")
   ↔ get_token w "OPENAI_API_KEY" = None)
  ∧ (is_Some (OpenAIGenerator.config self !! "URL")
     ↔ environ w !! "OPENAI_BASE_URL" = None).
Proof.
  rewrite init_eq. cbn zeta.
  destruct (get_models w _ _).2 as [[|first rest]|e]; try done.
  cbn [snd]. intros [= <-]. cbn [OpenAIGenerator.config].
  unfold Generator_config.
  destruct (get_token w "OPENAI_API_KEY") as [key|];
    destruct (environ w !! "OPENAI_BASE_URL") as [base|];
    split; split; intros H; try done;
    simplify_map_eq; try done; by destruct H.
Qed.

Lemma C9_config_slots_witness :
  (is_Some (OpenAIGenerator.config Sample.offline_generator !! "API Key")
   ↔ get_token Sample.offline "OPENAI_API_KEY" = None)
  ∧ (is_Some (OpenAIGenerator.config Sample.offline_generator !! "URL")
     ↔ environ Sample.offline !! "OPENAI_BASE_URL" = None).
Proof.
  apply (C9_config_slots Sample.offline Sample.offline_generator).
  vm_compute. reflexivity.
Defined.

(** C10: when discovery returns an empty list and [OPENAI_MODEL] is not set,
    the constructor raises [IndexError] at [models[0]] instead of falling
    back to the fixed list; and discovery does return an empty list on a
    well-formed response all of whose identifiers contain the substring
    embedding. *)
Theorem C10_empty_catalog (w : World) :
  ((get_models w (get_token w "OPENAI_API_KEY") (resolved_base_url w)).2 = Ok [] →
   environ w !! "OPENAI_MODEL" = None →
   (__init__ w).2 = Raise IndexError)
  ∧ (∀ token response payload entries ids,
       get_token w "OPENAI_API_KEY" = Some token →
       requests_get w (models_request token (resolved_base_url w)) = Ok response →
       raise_for_status response = Ok () →
       json_loads (text response) = Ok payload →
       Py.getitem payload "data" = Ok (JArr entries) →
       Forall2 has_id entries ids →
       Forall (λ s, PyStr.contains "embedding" s = true) ids →
       (get_models w (get_token w "OPENAI_API_KEY") (resolved_base_url w)).2
       = Ok []).
Proof.
  split.
  - intros Hmodels _. by apply init_empty_catalog.
  - intros token response payload entries ids -> Hget Hstatus Hjson Hdata Hids Hall.
    rewrite (get_models_success w token _ response payload entries ids) by done.
    cbn [snd]. by rewrite filter_all_embedding.
Qed.

Lemma C10_empty_catalog_witness :
  (__init__ (Sample.online 200%Z Sample.embedding_body [])).2 = Raise IndexError.
Proof.
  destruct (C10_empty_catalog (Sample.online 200%Z Sample.embedding_body []))
    as [Hfails Hempty].
  apply Hfails; [|reflexivity].
  apply (Hempty "sk-env"
           {| status_code := 200%Z; text := Sample.embedding_body |}
           (JObj [("data", JArr [JObj [("id", JStr "text-embedding-3")]])])
           [JObj [("id", JStr "text-embedding-3")]]
           ["text-embedding-3"]);
    try reflexivity.
  - repeat constructor. by eexists.
  - repeat constructor.
Defined.

(** * Further properties of the code *)

(** ** The decoding loop *)

Section decode_stream_more.
Implicit Types (line : string) (pre post rest : list string).

(** The loop emits chunks and nothing else. *)
Lemma decode_stream_trace rest :
  (decode_stream rest).1 = Yield <$> yielded (decode_stream rest).1.
Proof.
  induction rest as [|l rest IH]; [done|].
  rewrite decode_stream_cons.
  destruct (PyStr.startswith _ _); [|done].
  destruct (String.eqb _ _); [done|].
  destruct (json_loads _ ≫= handle_event) as [[c|]|e]; try done.
  cbn [fst]. change (yielded (Yield c :: ?t)) with (c :: yielded t).
  by rewrite fmap_cons, <- IH.
Qed.

(** A prefix of lines that the loop reads to its end is decoded on its own. *)
Lemma decode_stream_app pre post :
  Forall (λ line, terminal line = false) pre →
  (decode_stream pre).2 = Ok () →
  decode_stream (pre ++ post)
  = ((decode_stream pre).1 ++ (decode_stream post).1, (decode_stream post).2).
Proof.
  induction 1 as [|l pre Hl _ IH]; intros Hok.
  - simpl. by destruct (decode_stream post).
  - rewrite <- app_comm_cons, !decode_stream_cons.
    rewrite decode_stream_cons in Hok. unfold terminal in Hl.
    destruct (PyStr.startswith l "data: "); [|by apply IH].
    simpl in Hl. rewrite Hl in *.
    destruct (json_loads _ ≫= handle_event) as [[c|]|e]; [| |done].
    + cbn [fst snd] in *. by rewrite (IH Hok).
    + by apply IH.
Qed.

(** A line whose handling raises ends the loop with that error. *)
Lemma decode_stream_raise line rest e :
  PyStr.startswith line "data: " = true →
  terminal line = false →
  json_loads (PyStr.slice_from 6 line) ≫= handle_event = Raise e →
  decode_stream (line :: rest) = ([], Raise e).
Proof.
  intros Hprefix Hterm Hraise. rewrite decode_stream_cons, Hprefix.
  unfold terminal in Hterm. rewrite Hprefix in Hterm. simpl in Hterm.
  by rewrite Hterm, Hraise.
Qed.

End decode_stream_more.

(** X1: the loop yields at most one chunk per line that carries the
    [data: ] prefix, and its trace holds chunks only: no request, no log
    line. *)
Theorem X1_at_most_one_chunk_per_data_line (lines : list string) :
  (length (yielded (decode_stream lines).1) ≤ length (data_lines lines))%nat
  ∧ (decode_stream lines).1 = Yield <$> yielded (decode_stream lines).1.
Proof.
  split; [|apply decode_stream_trace].
  induction lines as [|l lines IH]; [done|].
  rewrite decode_stream_cons. unfold data_lines in *. cbn [List.filter].
  destruct (PyStr.startswith l "data: "); [|done].
  destruct (String.eqb _ _); [simpl; lia|].
  destruct (json_loads _ ≫= handle_event) as [[c|]|e]; simpl in *; lia.
Qed.

(** X2: decoding composes. When the loop reads a first batch of lines to its
    end (none of them terminal, none of them raising), the chunks of the
    batch followed by more lines are those of the batch followed by those of
    the remaining lines, and the outcome is that of the remaining lines. *)
Theorem X2_decode_stream_composes (pre post : list string) :
  Forall (λ line, terminal line = false) pre →
  (decode_stream pre).2 = Ok () →
  yielded (decode_stream (pre ++ post)).1
  = yielded (decode_stream pre).1 ++ yielded (decode_stream post).1
  ∧ (decode_stream (pre ++ post)).2 = (decode_stream post).2.
Proof.
  intros Hpre Hok. rewrite decode_stream_app by done. cbn [fst snd].
  split; [|done]. unfold yielded. by rewrite omap_app.
Qed.

Lemma X2_decode_stream_composes_witness :
  yielded (decode_stream ([Sample.hi_line; ": ping"] ++ [Sample.stop_line])).1
  = yielded (decode_stream [Sample.hi_line; ": ping"]).1
    ++ yielded (decode_stream [Sample.stop_line]).1
  ∧ (decode_stream ([Sample.hi_line; ": ping"] ++ [Sample.stop_line])).2
    = (decode_stream [Sample.stop_line]).2.
Proof.
  apply (X2_decode_stream_composes [Sample.hi_line; ": ping"] [Sample.stop_line]).
  - repeat constructor.
  - vm_compute. reflexivity.
Defined.

(** X3: malformed JSON in a data line is fatal. After a batch of lines read
    to its end, a prefixed, non-terminal line whose payload json.loads
    rejects ends the sequence with the decode error: the chunks of the batch
    are kept, and no line after the bad one is decoded. *)
Theorem X3_malformed_json_aborts (pre post : list string) (line : string) :
  Forall (λ line, terminal line = false) pre →
  (decode_stream pre).2 = Ok () →
  PyStr.startswith line "data: " = true →
  terminal line = false →
  json_loads (PyStr.slice_from 6 line) = Raise JSONDecodeError →
  decode_stream (pre ++ line :: post)
  = ((decode_stream pre).1, Raise JSONDecodeError).
Proof.
  intros Hpre Hok Hprefix Hterm Hjson.
  rewrite decode_stream_app by done.
  rewrite (decode_stream_raise line post JSONDecodeError); try done.
  - cbn [fst snd]. by rewrite app_nil_r.
  - by rewrite Hjson.
Qed.

Lemma X3_malformed_json_aborts_witness :
  decode_stream ([Sample.hi_line] ++ "data: {oops" :: [Sample.stop_line])
  = ([Yield {| message := JStr "Hi"; finish_reason := JNull |}],
     Raise JSONDecodeError).
Proof.
  apply (X3_malformed_json_aborts [Sample.hi_line] [Sample.stop_line]
           "data: {oops"); try (vm_compute; reflexivity).
  repeat constructor.
Defined.

Section handle_event_errors.



End handle_event_errors.

(** X4: an event without a first choice is fatal. After a batch of lines
    read to its end, a data line whose payload decodes to an object with no
    [choices] key ends the sequence with [KeyError], and one whose [choices]
    is an empty array ends it with [IndexError]; the chunks of the batch are
    kept and no later line is decoded. *)
Theorem X4_event_without_choice_aborts (pre post : list string)
    (line : string) (fields : list (string * json)) :
  Forall (λ line, terminal line = false) pre →
  (decode_stream pre).2 = Ok () →
  PyStr.startswith line "data: " = true →
  terminal line = false →
  json_loads (PyStr.slice_from 6 line) = Ok (JObj fields) →
  (Py.assoc "choices" fields = None →
   decode_stream (pre ++ line :: post) = ((decode_stream pre).1, Raise KeyError))
  ∧ (Py.assoc "choices" fields = Some (JArr []) →
     decode_stream (pre ++ line :: post)
     = ((decode_stream pre).1, Raise IndexError)).
Proof.
  intros Hpre Hok Hprefix Hterm Hjson.
  rewrite decode_stream_app by done.
  split; intros Hchoices.
  - rewrite (decode_stream_raise line post KeyError); try done.
    + cbn [fst snd]. by rewrite app_nil_r.
    + rewrite Hjson. cbn [mbind result_bind]. unfold handle_event.
      cbn [Py.getitem]. by rewrite Hchoices.
  - rewrite (decode_stream_raise line post IndexError); try done.
    + cbn [fst snd]. by rewrite app_nil_r.
    + rewrite Hjson. cbn [mbind result_bind]. unfold handle_event.
      cbn [Py.getitem]. by rewrite Hchoices.
Qed.

Lemma X4_event_without_choice_aborts_witness :
  decode_stream ([Sample.hi_line] ++ ("data: " +:+ Sample.error_body)
                   :: [Sample.stop_line])
  = ([Yield {| message := JStr "Hi"; finish_reason := JNull |}], Raise KeyError).
Proof.
  refine (proj1 (X4_event_without_choice_aborts [Sample.hi_line]
                   [Sample.stop_line] ("data: " +:+ Sample.error_body)
                   [("error", JObj [("message", JStr "Incorrect API key")])]
                   _ _ _ _ _) _); try (vm_compute; reflexivity).
  repeat constructor.
Defined.



(** ** Generation, as a whole call *)

Section generate_stream_more.
Context (w : World) (config : gmap string InputConfig).
Context (query context : string) (conversation : list Turn.t).

(** A call either stops before any event, or opens one connection with the
    request built from the configuration and decodes the answer. *)
Lemma generate_stream_cases :
  (∃ e, generate_stream w config query context conversation = ([], Raise e))
  ∨ (∃ (system_message model : InputConfig) (openai_key openai_url : json),
       config !! "System Message" = Some system_message
       ∧ config !! "Model" = Some model
       ∧ generate_stream w config query context conversation
         = let request :=
             completion_request w
               (prepared query context conversation (value system_message))
               (value model) openai_key openai_url in
           match httpx_stream w request with
           | Ok response =>
             (Connect request :: (decode_stream (lines response)).1,
              (decode_stream (lines response)).2)
           | Raise e => ([Connect request], Raise e)
           end).
Proof.
  destruct (config !! "System Message") as [system_message|] eqn:Hsm;
    [|left; exists AttributeError; unfold generate_stream; by rewrite Hsm].
  destruct (config !! "Model") as [model|] eqn:Hmodel;
    [|left; exists AttributeError; unfold generate_stream;
      by rewrite Hsm, Hmodel].
  destruct (get_environment w config "API Key" "OPENAI_API_KEY"
              "No OpenAI API Key found") as [key|e] eqn:Hkey;
    [|left; exists e; unfold generate_stream;
      rewrite Hsm, Hmodel, Hkey; cbn [option_value];
      by rewrite !bind_lift_ok].
  destruct (get_environment w config "URL" "OPENAI_BASE_URL"
              "https://api.openai.com/v1") as [base|e] eqn:Hurl;
    [|left; exists e; unfold generate_stream;
      rewrite Hsm, Hmodel, Hkey, Hurl; cbn [option_value];
      by rewrite !bind_lift_ok].
  right. exists system_message, model, key, base.
  split; [done|]. split; [done|].
  by apply generate_stream_resolved.
Qed.

End generate_stream_more.

(** X6: a generation call attempts at most one connection and never
    retries; its trace is empty, or is that one connection followed by the
    chunks; it logs nothing. *)
Theorem X6_single_connection (w : World) (config : gmap string InputConfig)
    (query context : string) (conversation : list Turn.t) :
  let trace := (generate_stream w config query context conversation).1 in
  (length (connections trace) ≤ 1)%nat
  ∧ (trace = [] ∨ ∃ request, trace = Connect request :: (Yield <$> yielded trace)).
Proof.
  intros trace. subst trace.
  destruct (generate_stream_cases w config query context conversation)
    as [[e ->]|(sm & m & key & base & _ & _ & ->)].
  - split; [simpl; lia|by left].
  - cbn zeta. destruct (httpx_stream w _) as [response|e]; cbn [fst].
    + rewrite connections_connect, decode_stream_connections.
      split; [simpl; lia|]. right. eexists.
      change (yielded (Connect ?r :: ?t)) with (yielded t).
      by rewrite <- decode_stream_trace.
    + split; [simpl; lia|]. right. by eexists.
Qed.

(** X7: a configuration without a [System Message] option, or without a
    [Model] option, makes the call raise [AttributeError] before any event.
    The dictionary passed to [config.get] as the default for [Model] does not
    help: it has no [value] attribute. *)
Theorem X7_missing_option_raises (w : World)
    (config : gmap string InputConfig) (query context : string)
    (conversation : list Turn.t) :
  config !! "System Message" = None ∨ config !! "Model" = None →
  generate_stream w config query context conversation
  = ([], Raise AttributeError).
Proof.
  intros [H|H]; unfold generate_stream.
  - by rewrite H.
  - rewrite H. by destruct (config !! "System Message").
Qed.

Lemma X7_missing_option_raises_witness :
  generate_stream (Sample.online 200%Z "" [Sample.hi_line])
    {[ "System Message" := system_message_option ]} "q" "c" []
  = ([], Raise AttributeError).
Proof.
  apply X7_missing_option_raises. right. reflexivity.
Defined.

(** X8: when the completion endpoint cannot be reached, the call yields no
    chunk and ends in an error, after at most one attempt. *)
Theorem X8_unreachable_endpoint (w : World)
    (config : gmap string InputConfig) (query context : string)
    (conversation : list Turn.t) (failure : exn) :
  (∀ request, httpx_stream w request = Raise failure) →
  let run := generate_stream w config query context conversation in
  yielded run.1 = []
  ∧ (length (connections run.1) ≤ 1)%nat
  ∧ ∃ e, run.2 = Raise e.
Proof.
  intros Hdown run. subst run.
  destruct (generate_stream_cases w config query context conversation)
    as [[e ->]|(sm & m & key & base & _ & _ & ->)].
  - split; [done|]. split; [simpl; lia|]. by exists e.
  - cbn zeta. rewrite Hdown. split; [done|]. split; [simpl; lia|].
    by exists failure.
Qed.

Lemma X8_unreachable_endpoint_witness :
  yielded (generate_stream Sample.offline Sample.user_config "q" "c" []).1 = []
  ∧ (length (connections
       (generate_stream Sample.offline Sample.user_config "q" "c" []).1) ≤ 1)%nat
  ∧ ∃ e, (generate_stream Sample.offline Sample.user_config "q" "c" []).2
         = Raise e.
Proof.
  apply (X8_unreachable_endpoint Sample.offline Sample.user_config "q" "c" []
           ConnectionError).
  reflexivity.
Defined.

(** X9: the request a call sends is a POST whose body carries the prompt as
    prepare_messages lays it out (the configured system message, the
    conversation in order, the query message), the configured model, the
    streaming flag, temperature 0.1 and at most 300 tokens. *)
Theorem X9_request_body (w : World) (config : gmap string InputConfig)
    (query context : string) (conversation : list Turn.t)
    (system_message model : InputConfig) (request : HttpRequest) :
  config !! "System Message" = Some system_message →
  config !! "Model" = Some model →
  request ∈ connections (generate_stream w config query context conversation).1 →
  method request = "POST"
  ∧ body request
    = Some {| messages :=
                system_turn (value system_message)
                :: map conversation_turn conversation
                   ++ [query_turn query context];
              model := value model;
              stream := true;
              temperature := 1 # 10;
              max_tokens := 300 |}.
Proof.
  intros Hsm Hmodel.
  destruct (generate_stream_cases w config query context conversation)
    as [[e ->]|(sm & m & key & base & Hsm' & Hmodel' & ->)].
  - intros H. by apply elem_of_nil in H.
  - simplify_eq. cbn zeta.
    assert (∀ t, connections t = [] →
      request ∈ connections
        (Connect (completion_request w
           (prepared query context conversation (value system_message))
           (value model) key base) :: t) →
      request = completion_request w
           (prepared query context conversation (value system_message))
           (value model) key base) as Hone.
    { intros t Ht. rewrite connections_connect, Ht. by intros ->%list_elem_of_singleton. }
    destruct (httpx_stream w _) as [response|e]; cbn [fst]; intros Hin.
    + apply Hone in Hin; [|apply decode_stream_connections].
      subst request. by rewrite prepared_eq.
    + apply (Hone []) in Hin; [|done].
      subst request. by rewrite prepared_eq.
Qed.

Lemma X9_request_body_witness :
  let w := Sample.online 200%Z "" [] in
  let turns := [{| Turn.type := "user"; Turn.content := "hello" |}] in
  let request :=
    completion_request w
      (prepared "q" "c" turns (JStr default_system_message))
      (JStr "gpt-4o") (JStr "sk-env") (JStr "https://env.example/v1") in
  method request = "POST"
  ∧ body request
    = Some {| messages :=
                [system_turn (JStr default_system_message);
                 {| Message.role := "user"; Message.content := JStr "hello" |};
                 query_turn "q" "c"];
              model := JStr "gpt-4o"; stream := true;
              temperature := 1 # 10; max_tokens := 300 |}.
Proof.
  intros w turns request.
  apply (X9_request_body w Sample.base_config "q" "c" turns
           system_message_option (model_option (JStr "gpt-4o") default_models)
           request); [reflexivity|reflexivity|].
  rewrite (generate_stream_resolved w Sample.base_config "q" "c" turns
             system_message_option (model_option (JStr "gpt-4o") default_models)
             (JStr "sk-env") (JStr "https://env.example/v1"));
    try reflexivity.
  cbn. apply list_elem_of_singleton. reflexivity.
Defined.

(** ** Discovery, on any response *)

Section get_models_more.
Context (w : World).


Lemma get_models_connections token url :
  connections (get_models w token url).1
  = match token with
    | Some t => [models_request t url]
    | None => []
    end.
Proof.
  destruct token as [t|]; [|done].
  rewrite get_models_eq.
  by destruct (requests_get w _ ≫= read_models).
Qed.

(** The comprehension keeps no string that contains the word. *)
Lemma chat_model_ids_no_embedding (data : list json) : ∀ ids s,
  chat_model_ids data = Ok ids →
  JStr s ∈ ids →
  PyStr.contains "embedding" s = false.
Proof.
  induction data as [|model data IH]; intros ids s; cbn [chat_model_ids].
  - intros [= <-] H. by apply elem_of_nil in H.
  - destruct (Py.getitem model "id") as [id|e] eqn:Hid; [|done].
    cbn [mbind result_bind].
    destruct (Py.contains "embedding" id) as [b|e] eqn:Hb; [|done].
    cbn [mbind result_bind].
    destruct b; cbn [negb]; [by apply IH|].
    destruct (chat_model_ids data) as [ids'|e]; [|done].
    cbn [mbind result_bind]. intros [= <-] [<-|Hin]%elem_of_cons.
    + cbn [Py.contains] in Hb. by injection Hb.
    + by eapply IH.
Qed.

(** One entry without an identifier makes the whole comprehension raise. *)
Lemma chat_model_ids_missing_id (data : list json) fields :
  JObj fields ∈ data →
  Py.assoc "id" fields = None →
  ∃ e, chat_model_ids data = Raise e.
Proof.
  intros Hin Hid.
  induction data as [|model data IH]; [by apply elem_of_nil in Hin|].
  cbn [chat_model_ids].
  apply elem_of_cons in Hin as [<-|Hin].
  - cbn [Py.getitem]. rewrite Hid. by eexists.
  - destruct (IH Hin) as [e He]. rewrite He.
    destruct (Py.getitem model "id") as [id|e1]; [|by eexists].
    cbn [mbind result_bind].
    destruct (Py.contains "embedding" id) as [[|]|e2]; by eexists.
Qed.

End get_models_more.

(** X10: discovery sends exactly one request when it has a token, a GET of
    [url/models] with the token as bearer credential and no body, whatever
    the outcome; without a token it sends none. It never retries. *)
Theorem X10_discovery_request (w : World) (token : option string) (url : string) :
  connections (get_models w token url).1
  = match token with
    | Some t =>
      [{| method := "GET"; url := url +:+ "/models";
          headers := [("Authorization", "Bearer " +:+ t)]; body := None |}]
    | None => []
    end.
Proof. apply get_models_connections. Qed.

(** X11: whatever the endpoint answers, no model name that get_models
    returns contains the substring embedding: this holds for the names it
    reads from a response and for the two names of the fixed list. *)
Theorem X11_no_embedding_model (w : World) (token : option string)
    (url : string) (models : list json) (s : string) :
  (get_models w token url).2 = Ok models →
  JStr s ∈ models →
  PyStr.contains "embedding" s = false.
Proof.
  assert (∀ s, JStr s ∈ default_models → PyStr.contains "embedding" s = false)
    as Hdefault.
  { intros s' H. unfold default_models in H.
    apply elem_of_cons in H as [[= ->]|H]; [by vm_compute|].
    apply list_elem_of_singleton in H as [= ->]. by vm_compute. }
  destruct token as [t|]; [|intros [= <-]; apply Hdefault].
  rewrite get_models_eq.
  destruct (requests_get w _) as [response|e]; cbn [mbind result_bind];
    [|intros [= <-]; apply Hdefault].
  destruct (read_models response) as [ids|e] eqn:Hread;
    [|intros [= <-]; apply Hdefault].
  cbn [snd]. intros [= <-]. unfold read_models in Hread.
  destruct (raise_for_status response); [|done].
  cbn [mbind result_bind] in Hread.
  destruct (json_loads _) as [payload|]; [|done].
  cbn [mbind result_bind] in Hread.
  destruct (Py.getitem payload "data") as [data|]; [|done].
  cbn [mbind result_bind] in Hread.
  destruct (Py.iter data) as [entries|]; [|done].
  cbn [mbind result_bind] in Hread.
  by apply (chat_model_ids_no_embedding entries ids).
Qed.

Lemma X11_no_embedding_model_witness :
  PyStr.contains "embedding" "gpt-4o" = false.
Proof.
  apply (X11_no_embedding_model (Sample.online 200%Z Sample.models_body [])
           (Some "sk-env") "https://env.example/v1" [JStr "gpt-4o"]).
  - vm_compute. reflexivity.
  - apply list_elem_of_singleton. reflexivity.
Defined.

(** X12: one bad entry costs the whole catalog. When the [data] array of an
    otherwise well-formed response holds an object without an [id] key,
    get_models logs the error and returns the fixed list, whatever the other
    entries are. *)
Theorem X12_entry_without_id_falls_back (w : World) (token url : string)
    (response : Response) (payload : json) (entries : list json)
    (fields : list (string * json)) :
  requests_get w (models_request token url) = Ok response →
  raise_for_status response = Ok () →
  json_loads (text response) = Ok payload →
  Py.getitem payload "data" = Ok (JArr entries) →
  JObj fields ∈ entries →
  Py.assoc "id" fields = None →
  ∃ e, get_models w (Some token) url
       = ([Connect (models_request token url); Info e], Ok default_models).
Proof.
  intros Hget Hstatus Hjson Hdata Hin Hid.
  destruct (chat_model_ids_missing_id entries fields Hin Hid) as [e He].
  exists e. apply get_models_raised. rewrite Hget. cbn [mbind result_bind].
  unfold read_models. rewrite Hstatus, Hjson. cbn [mbind result_bind].
  rewrite Hdata. cbn [mbind result_bind Py.iter]. by rewrite He.
Qed.

Lemma X12_entry_without_id_falls_back_witness :
  ∃ e, get_models
         (Sample.online 200%Z
            ("{" +:+ PyStr.quoted "data" +:+ ":[{" +:+ PyStr.quoted "id" +:+ ":"
             +:+ PyStr.quoted "gpt-4o" +:+ "},{}]}") [])
         (Some "sk-env") "https://env.example/v1"
       = ([Connect (models_request "sk-env" "https://env.example/v1"); Info e],
          Ok default_models).
Proof.
  apply (X12_entry_without_id_falls_back _ "sk-env" "https://env.example/v1"
           {| status_code := 200%Z;
              text := "{" +:+ PyStr.quoted "data" +:+ ":[{" +:+ PyStr.quoted "id"
                      +:+ ":" +:+ PyStr.quoted "gpt-4o" +:+ "},{}]}" |}
           (JObj [("data", JArr [JObj [("id", JStr "gpt-4o")]; JObj []])])
           [JObj [("id", JStr "gpt-4o")]; JObj []] []);
    try (vm_compute; reflexivity).
  apply elem_of_cons. right. apply list_elem_of_singleton. reflexivity.
Defined.

(** ** Construction, in full *)



(** X14: without a credential the constructor succeeds without any event, so
    without touching the network; its model dropdown lists the two fixed
    names, and its default is [OPENAI_MODEL] when set and gpt-4o otherwise. *)
Theorem X14_offline_construction (w : World) :
  get_token w "OPENAI_API_KEY" = None →
  ∃ self,
    __init__ w = ([], Ok self)
    ∧ OpenAIGenerator.config self !! "Model"
      = Some {| type := "dropdown";
                value := default (JStr "gpt-4o")
                           (JStr <$> environ w !! "OPENAI_MODEL");
                description := "Select an OpenAI Model";
                values := [JStr "gpt-4o"; JStr "gpt-3.5-turbo"] |}.
Proof.
  intros Htoken. rewrite init_eq, Htoken. cbn zeta.
  rewrite get_models_no_token. cbn [fst snd default_models].
  eexists. split; [done|]. cbn [OpenAIGenerator.config].
  destruct (environ w !! "OPENAI_BASE_URL"); by simplify_map_eq.
Qed.

Lemma X14_offline_construction_witness :
  ∃ self,
    __init__ Sample.offline = ([], Ok self)
    ∧ OpenAIGenerator.config self !! "Model"
      = Some {| type := "dropdown";
                value := default (JStr "gpt-4o")
                           (JStr <$> environ Sample.offline !! "OPENAI_MODEL");
                description := "Select an OpenAI Model";
                values := [JStr "gpt-4o"; JStr "gpt-3.5-turbo"] |}.
Proof. apply (X14_offline_construction Sample.offline). reflexivity. Defined.

(** X15: after a construction that succeeds, the [Model] option is a
    dropdown over the list that discovery returned, in its order; its value
    is [OPENAI_MODEL] when that is set, accepted without being looked up in
    the list, and the first discovered model otherwise, which is then one of
    the listed values; the [System Message] option holds the fixed persona
    prompt. *)
Theorem X15_model_option (w : World) (self : OpenAIGenerator.t) :
  (__init__ w).2 = Ok self →
  ∃ first rest,
    (get_models w (get_token w "OPENAI_API_KEY") (resolved_base_url w)).2
    = Ok (first :: rest)
    ∧ OpenAIGenerator.config self !! "Model"
      = Some {| type := "dropdown";
                value := match environ w !! "OPENAI_MODEL" with
                         | Some override => JStr override
                         | None => first
                         end;
                description := "Select an OpenAI Model";
                values := first :: rest |}
    ∧ OpenAIGenerator.config self !! "System Message"
      = Some {| type := "textarea";
                value := JStr default_system_message;
                description :=
                  "System prompt that defines the assistants behavior and tone.";
                values := [] |}.
Proof.
  rewrite init_eq. cbn zeta.
  destruct (get_models w _ _).2 as [[|first rest]|e]; try done.
  cbn [snd]. intros [= <-]. exists first, rest. split; [done|].
  cbn [OpenAIGenerator.config]. unfold Generator_config.
  destruct (get_token w "OPENAI_API_KEY");
    destruct (environ w !! "OPENAI_BASE_URL");
    destruct (environ w !! "OPENAI_MODEL"); by simplify_map_eq.
Qed.

Lemma X15_model_option_witness :
  ∃ first rest,
    (get_models Sample.offline (get_token Sample.offline "OPENAI_API_KEY")
       (resolved_base_url Sample.offline)).2
    = Ok (first :: rest)
    ∧ OpenAIGenerator.config Sample.offline_generator !! "Model"
      = Some {| type := "dropdown";
                value := match environ Sample.offline !! "OPENAI_MODEL" with
                         | Some override => JStr override
                         | None => first
                         end;
                description := "Select an OpenAI Model";
                values := first :: rest |}
    ∧ OpenAIGenerator.config Sample.offline_generator !! "System Message"
      = Some {| type := "textarea";
                value := JStr default_system_message;
                description :=
                  "System prompt that defines the assistants behavior and tone.";
                values := [] |}.
Proof.
  apply (X15_model_option Sample.offline Sample.offline_generator).
  vm_compute. reflexivity.
Defined.

(** X16: the constructed configuration holds the options [Model] and
    [System Message], an [API Key] option when the resolver found no
    credential, a [URL] option when [OPENAI_BASE_URL] is not set, and no
    other option. *)
Theorem X16_config_domain (w : World) (self : OpenAIGenerator.t) :
  (__init__ w).2 = Ok self →
  dom (OpenAIGenerator.config self)
  = {[ "Model"; "System Message" ]}
    ∪ (if get_token w "OPENAI_API_KEY" is None then {[ "API Key" ]} else ∅)
    ∪ (if environ w !! "OPENAI_BASE_URL" is None then {[ "URL" ]} else ∅).
Proof.
  rewrite init_eq. cbn zeta.
  destruct (get_models w _ _).2 as [[|first rest]|e]; try done.
  cbn [snd]. intros [= <-]. cbn [OpenAIGenerator.config].
  unfold Generator_config.
  destruct (get_token w "OPENAI_API_KEY");
    destruct (environ w !! "OPENAI_BASE_URL");
    rewrite ?dom_insert_L, dom_empty_L; set_solver.
Qed.

Lemma X16_config_domain_witness :
  dom (OpenAIGenerator.config Sample.offline_generator)
  = {[ "Model"; "System Message" ]}
    ∪ (if get_token Sample.offline "OPENAI_API_KEY" is None
       then {[ "API Key" ]} else ∅)
    ∪ (if environ Sample.offline !! "OPENAI_BASE_URL" is None
       then {[ "URL" ]} else ∅).
Proof.
  apply (X16_config_domain Sample.offline Sample.offline_generator).
  vm_compute. reflexivity.
Defined.

(** X17: the constructor's only network access is the discovery request:
    none without a credential; with the credential t, one GET of
    [base/models] with t as bearer token, where base is [OPENAI_BASE_URL],
    or the vendor's endpoint when that is not set. *)
Theorem X17_constructor_request (w : World) :
  connections (__init__ w).1
  = match get_token w "OPENAI_API_KEY" with
    | None => []
    | Some t =>
      [{| method := "GET";
          url := default "https://api.openai.com/v1"
                   (environ w !! "OPENAI_BASE_URL") +:+ "/models";
          headers := [("Authorization", "Bearer " +:+ t)];
          body := None |}]
    end.
Proof.
  rewrite init_eq. cbn zeta.
  pose proof (get_models_connections w (get_token w "OPENAI_API_KEY")
                (resolved_base_url w)) as H.
  destruct (get_models w _ _) as [trace [[|first rest]|e]]; cbn [fst snd] in *;
    rewrite H; by destruct (get_token w "OPENAI_API_KEY").
Qed.

(** X18: construction survives a discovery that cannot reach the network.
    With a credential and a request that raises, the constructor logs the
    error, succeeds, and offers the two fixed models. *)
Theorem X18_construction_survives_network_failure (w : World) (t : string)
    (e : exn) :
  get_token w "OPENAI_API_KEY" = Some t →
  requests_get w (models_request t (resolved_base_url w)) = Raise e →
  ∃ self,
    __init__ w
    = ([Connect (models_request t (resolved_base_url w)); Info e], Ok self)
    ∧ values <$> OpenAIGenerator.config self !! "Model" = Some default_models.
Proof.
  intros Htoken Hget. rewrite init_eq, Htoken. cbn zeta.
  rewrite (get_models_raised w t _ e) by (by rewrite Hget).
  cbn [fst snd default_models]. eexists. split; [done|].
  cbn [OpenAIGenerator.config].
  destruct (environ w !! "OPENAI_BASE_URL"); by simplify_map_eq.
Qed.

Lemma X18_construction_survives_network_failure_witness :
  ∃ self,
    __init__ Sample.unreachable
    = ([Connect (models_request "sk-env" "https://api.openai.com/v1");
        Info ConnectionError], Ok self)
    ∧ values <$> OpenAIGenerator.config self !! "Model" = Some default_models.
Proof.
  apply (X18_construction_survives_network_failure Sample.unreachable "sk-env"
           ConnectionError); reflexivity.
Defined.

(** ** Prompt assembly and the store *)

Section prepare_messages_more.
Implicit Types (h : list (list Message.t)) (conversation : list Turn.t).

Lemma append_turns_length conversation : ∀ h r,
  length (fold_left (λ h message, Store.append r (conversation_turn message) h)
            conversation h)
  = length h.
Proof.
  induction conversation as [|t conversation IH]; intros h r; simpl; [done|].
  rewrite IH. unfold Store.append. apply length_alter.
Qed.

(** The method allocates one list object, at the first free address. *)
Lemma prepare_messages_fresh query context conversation system_message h :
  (prepare_messages query context conversation system_message h).1 = length h
  ∧ length (prepare_messages query context conversation system_message h).2
    = S (length h).
Proof.
  unfold prepare_messages, Store.new; simpl. split; [done|].
  unfold Store.append at 1. rewrite length_alter, append_turns_length.
  rewrite length_app. simpl. lia.
Qed.

End prepare_messages_more.

(** X19: every call of prepare_messages builds a list object of its own. The
    list it returns is at an address that held nothing before, the store
    grows by that one object, and a second call leaves the list of the first
    call as it was: two prompts never share or overwrite their messages. *)
Theorem X19_prompts_do_not_alias
    (query1 context1 query2 context2 : string)
    (conversation1 conversation2 : list Turn.t)
    (system_message1 system_message2 : json) (h : list (list Message.t)) :
  let call1 :=
    prepare_messages query1 context1 conversation1 system_message1 h in
  let call2 :=
    prepare_messages query2 context2 conversation2 system_message2 call1.2 in
  h !! call1.1 = None
  ∧ length call1.2 = S (length h)
  ∧ call1.1 ≠ call2.1
  ∧ call2.2 !! call1.1
    = Some (system_turn system_message1
            :: map conversation_turn conversation1
               ++ [query_turn query1 context1])
  ∧ call2.2 !! call2.1
    = Some (system_turn system_message2
            :: map conversation_turn conversation2
               ++ [query_turn query2 context2]).
Proof.
  intros call1 call2.
  destruct (prepare_messages_fresh query1 context1 conversation1
              system_message1 h) as [Haddr1 Hlen1].
  destruct (prepare_messages_fresh query2 context2 conversation2
              system_message2 call1.2) as [Haddr2 Hlen2].
  fold call1 in Haddr1, Hlen1. fold call2 in Haddr2, Hlen2.
  split; [rewrite Haddr1; by apply lookup_ge_None_2|].
  split; [done|]. split; [lia|]. split.
  - apply prepare_messages_frame. apply prepare_messages_returns.
  - apply prepare_messages_returns.
Qed.
